(** * MedTrack: a shallow embedding of [app.py]

    The Flask application of the repository is embedded route by route.
    Every route handler of [app.py] becomes a computation in a small
    state-and-exception monad [M] whose state holds what the Python code
    reads and writes while it serves one request:

    - the Flask [session] (a dictionary from strings to strings),
    - the three DynamoDB tables [users], [doctors] and [appointments],
    - the number of values drawn so far from [uuid.uuid4],
    - the messages queued by [flash] (Flask keeps them in the session,
      under a key of their own; they are held apart here),
    - the trace of calls made to the outside world ([put_item],
      [sns.publish], [mail.send], [print]).

    The collaborators that live outside the repository (DynamoDB, SNS,
    Flask-Mail, the random source behind [uuid4]) are taken as an
    environment [Env]; the tables follow the point-get / upsert / full-scan
    contract of the Directory Store. *)

From Stdlib Require Import Ascii.
From stdpp Require Import base option list strings pretty gmap fin_maps.

Local Open Scope string_scope.

(** ** Data model *)

(** An item of the [users] table, as written by [register]. *)
Module User.
Record t : Type := mk
  { username : string;
    password : string;
    role : string }.

#[global] Instance eq_dec : EqDecision t.
Proof. solve_decision. Defined.
End User.

(** An item of the [doctors] table, as written by [doctor_register]. *)
Module Doctor.
Record t : Type := mk
  { doctor_id : string;
    name : string;
    specialization : string;
    email : string }.

#[global] Instance eq_dec : EqDecision t.
Proof. solve_decision. Defined.
End Doctor.

(** An item of the [appointments] table, as written by [book_appointment]. *)
Module Appointment.
Record t : Type := mk
  { appointment_id : string;
    doctor_id : string;
    patient_email : string;
    date : string;
    reason : string;
    status : string }.

#[global] Instance eq_dec : EqDecision t.
Proof. solve_decision. Defined.

(** The table's composite primary key: hash [appointment_id], range
    [doctor_id]. *)
Definition key (a : t) : string * string := (appointment_id a, doctor_id a).
End Appointment.

(** The [Message] object handed to Flask-Mail. *)
Module Message.
Record t : Type := mk
  { subject : string;
    sender : option string;
    recipients : list string;
    body : string }.
End Message.

(** ** The Directory Store *)

(** Modelled from the spec: the boto3 [Table] objects are not part of the
    repository; each table is a finite map from its primary key to the item
    stored under it, [get_item] is a point lookup, [put_item] an
    unconditional upsert and [scan] an unbounded full read whose optional
    filter is applied to the items read. *)
Module Table.
Section ops.
Context {K : Type} `{Countable K} {V : Type}.

Definition get_item (k : K) (tbl : gmap K V) : option V := tbl !! k.

Definition put_item (k : K) (item : V) (tbl : gmap K V) : gmap K V :=
  <[k := item]> tbl.

Definition scan (tbl : gmap K V) : list V := (map_to_list tbl).*2.

Definition scan_filter (P : V → Prop) `{∀ v, Decision (P v)}
    (tbl : gmap K V) : list V :=
  filter P (scan tbl).
End ops.
End Table.

Record Store : Type := mkStore
  { users_table : gmap string User.t;
    doctors_table : gmap string Doctor.t;
    appointments_table : gmap (string * string) Appointment.t }.

(** The tables right after [create_table_if_not_exists] created them. *)
Definition empty_store : Store :=
  {| users_table := ∅; doctors_table := ∅; appointments_table := ∅ |}.

(** ** The environment *)

(** [SNS_TOPIC_ARN] and [MAIL_USERNAME] are the values of [os.getenv];
    [sns_publish] and [mail_send] answer [Some e] when the call raises the
    exception [e] and [None] when it returns; [uuid4 n] is the string of the
    [n]-th UUID handed out by the random source. *)
Record Env : Type := mkEnv
  { SNS_TOPIC_ARN : option string;
    MAIL_USERNAME : option string;
    sns_publish : string → string → string → option string;
    mail_send : Message.t → option string;
    uuid4 : nat → string }.

(** ** Requests, responses and the handler monad *)

Inductive Method : Type := GET | POST.

Record Request : Type := mkRequest
  { method : Method;
    path : string;
    form : gmap string string }.

Inductive TemplateArgs : Type :=
  | NoArgs
  | ArgUsername (username : string)
  | ArgDoctors (doctors : list Doctor.t)
  | ArgAppointments (appointments : list Appointment.t).

Inductive Response : Type :=
  | Render (template : string) (args : TemplateArgs)
  | Redirect (location : string)
  | BadRequest (missing : string)          (* 400: request.form[k], k absent *)
  | InternalServerError (missing : string) (* 500: session[k], k absent *)
  | Unrouted   (* no rule of app.py matches: answered by Flask itself, 404
                  or what its static rule and URL normalisation give *)
  | MethodNotAllowed.                      (* 405 *)

(** Calls to the outside world, in the order the handler makes them. *)
Inductive Call : Type :=
  | PutUser (item : User.t)
  | PutDoctor (item : Doctor.t)
  | PutAppointment (item : Appointment.t)
  | SnsPublish (topic message subject : string)
  | MailSend (msg : Message.t)
  | Print (line : string).

Record State : Type := mkState
  { session : gmap string string;
    store : Store;
    uuid_calls : nat;
    flashes : list (string * string);
    trace : list Call }.

Inductive Raised : Type :=
  | BadRequestKeyError (key : string)
  | KeyError (key : string).

(** A handler step: it either returns a value or raises, and in both cases
    leaves a state behind (nothing is rolled back when Python raises). *)
Definition M (A : Type) : Type := State → (Raised + A) * State.

#[global] Instance M_ret : MRet M := λ A a st, (inr a, st).

#[global] Instance M_bind : MBind M := λ A B f m st,
  match m st with
  | (inl e, st') => (inl e, st')
  | (inr a, st') => f a st'
  end.

Definition get_state : M State := λ st, (inr st, st).
Definition raise {A} (e : Raised) : M A := λ st, (inl e, st).

(** [session[k] = v] *)
Definition session_set (k v : string) : M unit := λ st,
  (inr (), {| session := <[k := v]> (session st); store := store st;
              uuid_calls := uuid_calls st; flashes := flashes st;
              trace := trace st |}).

(** [session.clear()]: the session is emptied, and with it the messages
    [flash] queued, which Flask keeps in the session under ['_flashes']. *)
Definition session_clear : M unit := λ st,
  (inr (), {| session := ∅; store := store st; uuid_calls := uuid_calls st;
              flashes := []; trace := trace st |}).

(** Record a call to the outside world. *)
Definition call (c : Call) : M unit := λ st,
  (inr (), {| session := session st; store := store st;
              uuid_calls := uuid_calls st; flashes := flashes st;
              trace := trace st ++ [c] |}).

(** [users_table.get_item(Key={'username': username})]; the answer holds
    an ['Item'] exactly when the result is [Some]. *)
Definition users_get_item (username : string) : M (option User.t) := λ st,
  (inr (Table.get_item username (users_table (store st))), st).

(** [users_table.put_item(Item=item)] *)
Definition users_put_item (item : User.t) : M unit := λ st,
  (inr (),
   {| session := session st;
      store := {| users_table :=
                    Table.put_item (User.username item) item
                      (users_table (store st));
                  doctors_table := doctors_table (store st);
                  appointments_table := appointments_table (store st) |};
      uuid_calls := uuid_calls st; flashes := flashes st;
      trace := trace st ++ [PutUser item] |}).

(** [doctors_table.put_item(Item=item)] *)
Definition doctors_put_item (item : Doctor.t) : M unit := λ st,
  (inr (),
   {| session := session st;
      store := {| users_table := users_table (store st);
                  doctors_table :=
                    Table.put_item (Doctor.doctor_id item) item
                      (doctors_table (store st));
                  appointments_table := appointments_table (store st) |};
      uuid_calls := uuid_calls st; flashes := flashes st;
      trace := trace st ++ [PutDoctor item] |}).

(** [doctors_table.scan().get('Items', [])] *)
Definition doctors_scan : M (list Doctor.t) := λ st,
  (inr (Table.scan (doctors_table (store st))), st).

(** [appointments_table.put_item(Item=item)] *)
Definition appointments_put_item (item : Appointment.t) : M unit := λ st,
  (inr (),
   {| session := session st;
      store := {| users_table := users_table (store st);
                  doctors_table := doctors_table (store st);
                  appointments_table :=
                    Table.put_item (Appointment.key item) item
                      (appointments_table (store st)) |};
      uuid_calls := uuid_calls st; flashes := flashes st;
      trace := trace st ++ [PutAppointment item] |}).

(** [appointments_table.scan(FilterExpression=...).get('Items', [])] *)
Definition appointments_scan (P : Appointment.t → Prop)
    `{∀ a, Decision (P a)} : M (list Appointment.t) := λ st,
  (inr (Table.scan_filter P (appointments_table (store st))), st).

(** [flash(message, category)] *)
Definition flash (message category : string) : M unit := λ st,
  (inr (), {| session := session st; store := store st;
              uuid_calls := uuid_calls st;
              flashes := flashes st ++ [(message, category)];
              trace := trace st |}).

(** [str(uuid.uuid4())] *)
Definition uuid4_str (env : Env) : M string := λ st,
  (inr (uuid4 env (uuid_calls st)),
   {| session := session st; store := store st;
      uuid_calls := S (uuid_calls st); flashes := flashes st;
      trace := trace st |}).

(** [request.form[k]]: a missing field aborts the request with 400. *)
Definition form_get (req : Request) (k : string) : M string :=
  match form req !! k with
  | Some v => mret v
  | None => raise (BadRequestKeyError k)
  end.

(** [session[k]]: a missing key raises [KeyError]. *)
Definition session_get (k : string) : M string :=
  st ← get_state;
  match session st !! k with
  | Some v => mret v
  | None => raise (KeyError k)
  end.

(** ['role' in session and session['role'] == required]; the guards of the
    three appointment routes are written as its negation,
    ['role' not in session or session['role'] != required]. *)
Definition role_is (required : string) (s : gmap string string) : bool :=
  match s !! "role" with
  | Some r => String.eqb r required
  | None => false
  end.

(** The URL rules declared by the [@app.route] decorators, by endpoint. *)
Definition url_map : list (string * string) :=
  [ ("home", "/");
    ("register", "/register");
    ("login", "/login");
    ("doctor_dashboard", "/doctor");
    ("patient_dashboard", "/patient");
    ("logout", "/logout");
    ("book_appointment", "/appointment/book");
    ("doctor_appointments", "/doctor/appointments");
    ("patient_appointments", "/patient/appointments");
    ("doctor_register", "/doctor/register") ].

(** [url_for(endpoint)]; the application only asks for endpoints it
    declares, for which the rule is found. *)
Definition url_for (endpoint : string) : string :=
  match list_find (λ r, r.1 = endpoint) url_map with
  | Some (_, r) => r.2
  | None => ""
  end.

(** ** The notification dispatcher *)

(** [send_sns_notification(message)]: nothing is done when
    [SNS_TOPIC_ARN] is unset or empty; an exception of [sns.publish] is
    printed and goes no further. *)
Definition send_sns_notification (env : Env) (message : string) : M unit :=
  match SNS_TOPIC_ARN env with
  | Some topic =>
      if String.eqb topic "" then mret ()
      else
        match sns_publish env topic message "MedTrack Notification" with
        | None => call (SnsPublish topic message "MedTrack Notification")
        | Some e => call (Print ("SNS error: " ++ e))
        end
  | None => mret ()
  end.

(** ** Routes *)

(** [GET /] *)
Definition home (req : Request) : M Response :=
  mret (Render "home.html" NoArgs).

(** [GET, POST /register] *)
Definition register (env : Env) (req : Request) : M Response :=
  match method req with
  | POST =>
      role ← form_get req "role";
      username ← form_get req "username";
      password ← form_get req "password";
      response ← users_get_item username;
      match response with
      | Some _ =>
          flash "User already exists!" "danger";;
          mret (Render "register.html" NoArgs)
      | None =>
          users_put_item (User.mk username password role);;
          let msg := Message.mk "Welcome to MedTrack!" (MAIL_USERNAME env)
                       [username]
                       ("Hello " ++ username ++
                        "," ++ String "010"%char (String "010"%char
                        ("Thank you for registering as a " ++ role ++
                         " on MedTrack."))) in
          match mail_send env msg with
          | None => call (MailSend msg)
          | Some e => call (Print ("Email error: " ++ e))
          end;;
          flash "Registration successful! Please log in." "success";;
          mret (Redirect "/login")
      end
  | GET => mret (Render "register.html" NoArgs)
  end.

(** [GET, POST /login] *)
Definition login (req : Request) : M Response :=
  match method req with
  | POST =>
      username ← form_get req "username";
      password ← form_get req "password";
      response ← users_get_item username;
      match response with
      | Some user =>
          if String.eqb (User.password user) password then
            session_set "username" username;;
            session_set "role" (User.role user);;
            mret (Redirect ("/" ++ User.role user))
          else
            flash "Invalid credentials!" "danger";;
            mret (Render "login.html" NoArgs)
      | None =>
          flash "Invalid credentials!" "danger";;
          mret (Render "login.html" NoArgs)
      end
  | GET => mret (Render "login.html" NoArgs)
  end.

(** [GET /doctor] *)
Definition doctor_dashboard (req : Request) : M Response :=
  st ← get_state;
  if role_is "doctor" (session st) then
    username ← session_get "username";
    mret (Render "doctor_dashboard.html" (ArgUsername username))
  else mret (Redirect "/login").

(** [GET /patient] *)
Definition patient_dashboard (req : Request) : M Response :=
  st ← get_state;
  if role_is "patient" (session st) then
    username ← session_get "username";
    mret (Render "patient_dashboard.html" (ArgUsername username))
  else mret (Redirect "/login").

(** [GET /logout] *)
Definition logout (req : Request) : M Response :=
  session_clear;;
  mret (Redirect "/").

(** [GET, POST /appointment/book] *)
Definition book_appointment (env : Env) (req : Request) : M Response :=
  st ← get_state;
  if negb (role_is "patient" (session st)) then mret (Redirect "/login")
  else
    match method req with
    | POST =>
        appointment_id ← uuid4_str env;
        doctor_id ← form_get req "doctor_id";
        patient_email ← session_get "username";
        date ← form_get req "date";
        reason ← form_get req "reason";
        appointments_put_item
          (Appointment.mk appointment_id doctor_id patient_email date reason
             "Scheduled");;
        send_sns_notification env
          ("New appointment booked with Doctor ID " ++ doctor_id ++
           " on " ++ date ++ " for " ++ patient_email);;
        flash "Appointment booked successfully!" "success";;
        mret (Redirect (url_for "patient_dashboard"))
    | GET =>
        doctors ← doctors_scan;
        mret (Render "book_appointment.html" (ArgDoctors doctors))
    end.

(** [GET /doctor/appointments] *)
Definition doctor_appointments (req : Request) : M Response :=
  st ← get_state;
  if negb (role_is "doctor" (session st)) then mret (Redirect "/login")
  else
    doctor_id ← session_get "username";
    appointments ← appointments_scan (λ a, Appointment.doctor_id a = doctor_id);
    mret (Render "view_appointment_doctor.html" (ArgAppointments appointments)).

(** [GET /patient/appointments] *)
Definition patient_appointments (req : Request) : M Response :=
  st ← get_state;
  if negb (role_is "patient" (session st)) then mret (Redirect "/login")
  else
    patient_email ← session_get "username";
    appointments ←
      appointments_scan (λ a, Appointment.patient_email a = patient_email);
    mret (Render "view_appointment_patient.html" (ArgAppointments appointments)).

(** [GET, POST /doctor/register] *)
Definition doctor_register (env : Env) (req : Request) : M Response :=
  match method req with
  | POST =>
      doctor_id ← uuid4_str env;
      name ← form_get req "name";
      specialization ← form_get req "specialization";
      email ← form_get req "email";
      doctors_put_item (Doctor.mk doctor_id name specialization email);;
      flash "Doctor registered successfully!" "success";;
      mret (Redirect "/login")
  | GET => mret (Render "doctor_register.html" NoArgs)
  end.

(** ** The application *)

(** A route declared without [methods=...] answers GET only. *)
Definition get_only (view : Request → M Response) (req : Request) : M Response :=
  match method req with
  | GET => view req
  | POST => mret MethodNotAllowed
  end.

(** The URL dispatch set up by the [@app.route] decorators: a view runs
    for the path of its rule and for no other. A path that is none of the
    ten rules reaches no view; Flask answers it on its own (404, a file or
    405 under the [/static/] rule of [Flask(__name__)], a redirect for
    doubled slashes), which is [Unrouted] here. *)
Definition app (env : Env) (req : Request) : M Response :=
  if String.eqb (path req) "/" then get_only home req
  else if String.eqb (path req) "/register" then register env req
  else if String.eqb (path req) "/login" then login req
  else if String.eqb (path req) "/doctor" then get_only doctor_dashboard req
  else if String.eqb (path req) "/patient" then get_only patient_dashboard req
  else if String.eqb (path req) "/logout" then get_only logout req
  else if String.eqb (path req) "/appointment/book" then book_appointment env req
  else if String.eqb (path req) "/doctor/appointments"
       then get_only doctor_appointments req
  else if String.eqb (path req) "/patient/appointments"
       then get_only patient_appointments req
  else if String.eqb (path req) "/doctor/register" then doctor_register env req
  else mret Unrouted.

(** What the client receives: the view's response, or the error page of the
    exception that escaped the view. *)
Definition respond (r : Raised + Response) : Response :=
  match r with
  | inr resp => resp
  | inl (BadRequestKeyError k) => BadRequest k
  | inl (KeyError k) => InternalServerError k
  end.

Definition serve (env : Env) (req : Request) (st : State) : Response * State :=
  let '(r, st') := app env req st in (respond r, st').

(** The session travels with the client: a request arrives carrying the
    session of whoever sends it. *)
Definition with_session (s : gmap string string) (st : State) : State :=
  {| session := s; store := store st; uuid_calls := uuid_calls st;
     flashes := flashes st; trace := trace st |}.

(** The server's life: requests served one after the other, each with the
    session its client presents. *)
Fixpoint run (env : Env) (reqs : list (gmap string string * Request))
    (st : State) : State :=
  match reqs with
  | [] => st
  | (s, req) :: reqs' => run env reqs' (serve env req (with_session s st)).2
  end.

(** The state of a freshly started application. *)
Definition init_state : State :=
  {| session := ∅; store := empty_store; uuid_calls := 0;
     flashes := []; trace := [] |}.

(** The [appointment_id]s written by the bookings of a trace. *)
Definition booked_ids (tr : list Call) : list string :=
  omap (λ c, match c with
             | PutAppointment a => Some (Appointment.appointment_id a)
             | _ => None
             end) tr.

(** The role-restricted routes, with the role each one asks for. *)
Inductive Gated : Type :=
  | DoctorDashboard
  | PatientDashboard
  | BookAppointment
  | DoctorAppointments
  | PatientAppointments.

Definition required_role (g : Gated) : string :=
  match g with
  | DoctorDashboard | DoctorAppointments => "doctor"
  | PatientDashboard | BookAppointment | PatientAppointments => "patient"
  end.

Definition gated_view (env : Env) (g : Gated) : Request → M Response :=
  match g with
  | DoctorDashboard => doctor_dashboard
  | PatientDashboard => patient_dashboard
  | BookAppointment => book_appointment env
  | DoctorAppointments => doctor_appointments
  | PatientAppointments => patient_appointments
  end.

(** The two roles of the data model. *)
Definition valid_role (r : string) : Prop := r = "patient" ∨ r = "doctor".

Definition roles_valid (db : Store) : Prop :=
  ∀ k u, users_table db !! k = Some u → valid_role (User.role u).

(** The two ways a credential check ends: the session now carries the
    identity and the client is sent to the dashboard of the role, or the
    generic message is flashed and the login page shown again. *)
Definition logged_in (st : State) (u r : string) : (Raised + Response) * State :=
  (inr (Redirect ("/" ++ r)),
   with_session (<["role" := r]> (<["username" := u]> (session st))) st).

Definition with_flash (message category : string) (st : State) : State :=
  {| session := session st; store := store st; uuid_calls := uuid_calls st;
     flashes := flashes st ++ [(message, category)]; trace := trace st |}.

Definition invalid_credentials (st : State) : (Raised + Response) * State :=
  (inr (Render "login.html" NoArgs),
   with_flash "Invalid credentials!" "danger" st).

Definition already_exists (st : State) : (Raised + Response) * State :=
  (inr (Render "register.html" NoArgs),
   with_flash "User already exists!" "danger" st).

(** A user [u] is on file with stored password exactly [p]. *)
Definition credentials_match (db : Store) (u p : string) : Prop :=
  ∃ user, users_table db !! u = Some user ∧ User.password user = p.

(** Sample data: a store holding the patient alice and one appointment of
    hers, and the requests used to exercise the routes. *)
Definition alice : User.t := User.mk "alice" "pw1" "patient".

Definition checkup : Appointment.t :=
  Appointment.mk "a-1" "D1" "alice" "2024-01-01" "checkup" "Scheduled".

Definition sample_store : Store :=
  {| users_table := {[ "alice" := alice ]};
     doctors_table := ∅;
     appointments_table := {[ ("a-1", "D1") := checkup ]} |}.

Definition sample_state (s : gmap string string) : State :=
  {| session := s; store := sample_store; uuid_calls := 0;
     flashes := []; trace := [] |}.

Definition alice_session : gmap string string :=
  {[ "username" := "alice"; "role" := "patient" ]}.

Definition post (p : string) (f : gmap string string) : Request :=
  {| method := POST; path := p; form := f |}.

Definition get (p : string) : Request :=
  {| method := GET; path := p; form := ∅ |}.

Definition sample_env : Env :=
  {| SNS_TOPIC_ARN := Some "arn:aws:sns:us-east-1:000000000000:medtrack";
     MAIL_USERNAME := None;
     sns_publish := λ _ _ _, Some "EndpointConnectionError";
     mail_send := λ _, Some "SMTPAuthenticationError";
     uuid4 := λ n, "uuid-" ++ pretty n |}.

(** The environment [env] with another notification channel: topic [arn]
    (or none) and a [publish] that fails where it likes. *)
Definition with_sns (arn : option string)
    (publish : string → string → string → option string) (env : Env) : Env :=
  {| SNS_TOPIC_ARN := arn; MAIL_USERNAME := MAIL_USERNAME env;
     sns_publish := publish; mail_send := mail_send env; uuid4 := uuid4 env |}.

(** A state without its trace of outside calls: what the application
    itself keeps. *)
Definition kept (st : State) :=
  (session st, store st, uuid_calls st, flashes st).

(** The records handed to [appointments_table.put_item] along a trace. *)
Definition booked (tr : list Call) : list Appointment.t :=
  omap (λ c, match c with PutAppointment a => Some a | _ => None end) tr.

(** What serving one request may do to the server: the trace only grows;
    at most one UUID is drawn, and an [appointment_id] written is the one
    just drawn; the [users] table changes only by a POST to [/register],
    which stores the submitted role. *)
Definition step_inv (env : Env) (req : Request) (st : State)
    (out : (Raised + Response) * State) : Prop :=
  ∃ tr, trace out.2 = (trace st ++ tr)%list
    ∧ ((uuid_calls out.2 = uuid_calls st ∧ booked_ids tr = [])
       ∨ (uuid_calls out.2 = S (uuid_calls st)
          ∧ (booked_ids tr = [] ∨ booked_ids tr = [uuid4 env (uuid_calls st)])))
    ∧ (users_table (store out.2) = users_table (store st)
       ∨ ∃ u p r, method req = POST ∧ path req = "/register"
                  ∧ form req !! "role" = Some r
                  ∧ users_table (store out.2)
                    = <[u := User.mk u p r]> (users_table (store st))).

(** A registration that submits a role outside the data model. *)
Definition register_admin : Request :=
  post "/register"
    {[ "role" := "admin"; "username" := "mallory"; "password" := "pw" ]}.

(** Every registration among [reqs] submits one of the two roles. *)
Definition roles_submitted_valid (reqs : list (gmap string string * Request)) : Prop :=
  Forall (λ sr, method sr.2 = POST → path sr.2 = "/register" →
                ∀ r, form sr.2 !! "role" = Some r → valid_role r) reqs.

(** The end-to-end scenario: alice registers, a doctor profile is
    registered (it draws the first UUID), alice logs in and books with
    that doctor. *)
Definition scenario : list (gmap string string * Request) :=
  [ (∅, post "/register"
          {[ "role" := "patient"; "username" := "alice"; "password" := "pw1" ]});
    (∅, post "/doctor/register"
          {[ "name" := "Dr. X"; "specialization" := "Cardio";
             "email" := "x@x.com" ]});
    (∅, post "/login" {[ "username" := "alice"; "password" := "pw1" ]});
    (alice_session,
     post "/appointment/book"
       {[ "doctor_id" := "uuid-0"; "date" := "2024-01-01";
          "reason" := "checkup" ]}) ].

(** ** Table provisioning *)

(** What [describe_table] tells of a table: its key schema (attribute
    name, key type), its attribute definitions (attribute name, attribute
    type) and its billing mode. *)
Record TableDescription : Type := mkTableDescription
  { KeySchema : list (string * string);
    AttributeDefinitions : list (string * string);
    BillingMode : string }.

(** [create_table_if_not_exists(table_name, key_schema,
    attribute_definitions)] over the tables of the account, by name:
    [describe_table] answers for a table that exists and raises
    [ResourceNotFoundException] otherwise, in which case the table is
    created on demand and waited for. *)
Definition create_table_if_not_exists (table_name : string)
    (key_schema attribute_definitions : list (string * string))
    (account : gmap string TableDescription) : gmap string TableDescription :=
  match account !! table_name with
  | Some _ => account
  | None =>
      <[table_name := {| KeySchema := key_schema;
                         AttributeDefinitions := attribute_definitions;
                         BillingMode := "PAY_PER_REQUEST" |}]> account
  end.

(** The three calls made when the module is loaded, in their order. *)
Definition provision (account : gmap string TableDescription)
    : gmap string TableDescription :=
  create_table_if_not_exists "appointments"
    [("appointment_id", "HASH"); ("doctor_id", "RANGE")]
    [("appointment_id", "S"); ("doctor_id", "S")]
    (create_table_if_not_exists "doctors"
       [("doctor_id", "HASH")] [("doctor_id", "S")]
       (create_table_if_not_exists "users"
          [("username", "HASH")] [("username", "S")] account)).

(** ** One client *)

(** A client sending its requests one after the other, the session it is
    handed back going out again with the next request. *)
Fixpoint browse (env : Env) (reqs : list Request) (st : State)
    : list Response * State :=
  match reqs with
  | [] => ([], st)
  | req :: reqs' =>
      let '(r, st1) := serve env req st in
      let '(rs, st2) := browse env reqs' st1 in
      (r :: rs, st2)
  end.

(** A session as [login] and [logout] leave it: a role never comes
    without a username. *)
Definition session_wf (s : gmap string string) : Prop :=
  is_Some (s !! "role") → is_Some (s !! "username").

(** ** Stores and their writes *)

(** The store after one [put_item], as recorded in the trace. *)
Definition apply_call (db : Store) (c : Call) : Store :=
  match c with
  | PutUser item =>
      {| users_table := Table.put_item (User.username item) item (users_table db);
         doctors_table := doctors_table db;
         appointments_table := appointments_table db |}
  | PutDoctor item =>
      {| users_table := users_table db;
         doctors_table :=
           Table.put_item (Doctor.doctor_id item) item (doctors_table db);
         appointments_table := appointments_table db |}
  | PutAppointment item =>
      {| users_table := users_table db;
         doctors_table := doctors_table db;
         appointments_table :=
           Table.put_item (Appointment.key item) item (appointments_table db) |}
  | _ => db
  end.

(** The store obtained by replaying the writes of a trace. *)
Definition replay (tr : list Call) (db : Store) : Store :=
  foldl apply_call db tr.

(** Every item sits under the key its own fields spell, and every
    appointment is scheduled. *)
Definition store_wf (db : Store) : Prop :=
  (∀ k u, users_table db !! k = Some u → User.username u = k)
  ∧ (∀ k d, doctors_table db !! k = Some d → Doctor.doctor_id d = k)
  ∧ (∀ k a, appointments_table db !! k = Some a →
            Appointment.key a = k ∧ Appointment.status a = "Scheduled").

(** The paths of the routes that answer GET only. *)
Definition get_only_paths : list string :=
  [ "/"; "/doctor"; "/patient"; "/logout"; "/doctor/appointments";
    "/patient/appointments" ].

(** The paths whose POST writes to a table. *)
Definition writing_paths : list string :=
  [ "/register"; "/appointment/book"; "/doctor/register" ].

(** The message published for a booking. *)
Definition booking_message (doctor_id date patient_email : string) : string :=
  "New appointment booked with Doctor ID " ++ doctor_id ++
  " on " ++ date ++ " for " ++ patient_email.

(** The welcome mail of a registration. *)
Definition welcome_mail (env : Env) (username role : string) : Message.t :=
  Message.mk "Welcome to MedTrack!" (MAIL_USERNAME env) [username]
    ("Hello " ++ username ++
     "," ++ String "010"%char (String "010"%char
     ("Thank you for registering as a " ++ role ++ " on MedTrack."))).

(** What one request writes: the trace grows by [tr], at most one UUID is
    drawn, and the store is the old one with the [put_item]s of [tr]
    applied; there is at most one, a new user under a free username, a
    doctor profile or an appointment under the UUID just drawn. *)
Definition step_writes (env : Env) (st : State)
    (out : (Raised + Response) * State) : Prop :=
  ∃ tr, trace out.2 = (trace st ++ tr)%list
    ∧ store out.2 = replay tr (store st)
    ∧ (uuid_calls out.2 = uuid_calls st ∨ uuid_calls out.2 = S (uuid_calls st))
    ∧ ((store out.2 = store st ∧ booked tr = [])
       ∨ (∃ u p r, users_table (store st) !! u = None
                   ∧ store out.2 = apply_call (store st) (PutUser (User.mk u p r))
                   ∧ booked tr = [])
       ∨ (∃ n sp e,
            store out.2
            = apply_call (store st)
                (PutDoctor (Doctor.mk (uuid4 env (uuid_calls st)) n sp e))
            ∧ booked tr = [])
       ∨ (∃ d u date reason,
            let a := Appointment.mk (uuid4 env (uuid_calls st)) d u date
                       reason "Scheduled" in
            store out.2 = apply_call (store st) (PutAppointment a)
            ∧ booked tr = [a]
            ∧ uuid_calls out.2 = S (uuid_calls st))).

(** A request that wrote nothing, drew no UUID and called nobody. *)
Definition quiet (st st' : State) : Prop :=
  store st' = store st ∧ uuid_calls st' = uuid_calls st ∧ trace st' = trace st.

(** An environment whose UUID source hands out the same value at every
    draw, and two bookings by alice. *)
Definition repeating_env : Env :=
  {| SNS_TOPIC_ARN := None;
     MAIL_USERNAME := None;
     sns_publish := λ _ _ _, None;
     mail_send := λ _, None;
     uuid4 := λ _, "1b4e28ba-2fa1-4d3b-a3f5-0d2c1f3e9a77" |}.

Definition two_bookings : list (gmap string string * Request) :=
  [ (alice_session,
     post "/appointment/book"
       {[ "doctor_id" := "D1"; "date" := "2024-01-01"; "reason" := "checkup" ]});
    (alice_session,
     post "/appointment/book"
       {[ "doctor_id" := "D2"; "date" := "2024-03-03"; "reason" := "flu" ]}) ].

(** ** Reasoning about handlers *)

Ltac unfold_M :=
  unfold mbind, M_bind, mret, M_ret, get_state, raise, session_set,
    session_clear, call, flash, uuid4_str, form_get, session_get,
    users_get_item, users_put_item, doctors_put_item, doctors_scan,
    appointments_put_item, appointments_scan, Table.get_item, Table.put_item.

(** Run a handler as far as the known facts allow. *)
Ltac run_M :=
  repeat progress
    (unfold_M;
     cbn beta iota zeta delta [session store uuid_calls flashes trace fst snd]).

Ltac unfold_views :=
  unfold home, register, login, doctor_dashboard, patient_dashboard, logout,
    book_appointment, doctor_appointments, patient_appointments,
    doctor_register, send_sns_notification, get_only in *.

Lemma role_is_true required s :
  role_is required s = true ↔ s !! "role" = Some required.
Proof.
  unfold role_is. destruct (s !! "role") as [r|] eqn:E.
  - rewrite String.eqb_eq. split; congruence.
  - split; discriminate.
Qed.

Lemma role_is_false required s :
  role_is required s = false ↔ s !! "role" ≠ Some required.
Proof.
  rewrite <- role_is_true. destruct (role_is required s); split; congruence.
Qed.

Lemma elem_of_scan `{Countable K} {V} (tbl : gmap K V) (v : V) :
  v ∈ Table.scan tbl ↔ ∃ k, tbl !! k = Some v.
Proof.
  unfold Table.scan. rewrite list_elem_of_fmap. split.
  - intros [[k v'] [-> Hin]]. exists k. by apply elem_of_map_to_list in Hin.
  - intros [k Hk]. exists (k, v). split; [done|]. by apply elem_of_map_to_list.
Qed.

Lemma elem_of_scan_filter `{Countable K} {V} (P : V → Prop)
    `{∀ v, Decision (P v)} (tbl : gmap K V) (v : V) :
  v ∈ Table.scan_filter P tbl ↔ (∃ k, tbl !! k = Some v) ∧ P v.
Proof.
  unfold Table.scan_filter. rewrite list_elem_of_filter, elem_of_scan. tauto.
Qed.

(** ** Account service *)

(** C1. A POST to [/login] with username [u] and password [p] logs the
    client in, storing the identity [{username: u, role: stored role}] in
    the session, exactly when a user [u] is on file with stored password
    [p]; in every other case the outcome is [invalid_credentials], the same
    flash and page whether the username or the password was wrong. *)
Theorem login_authenticates (req : Request) (st : State) (u p : string)
    (Hmethod : method req = POST)
    (Hu : form req !! "username" = Some u)
    (Hp : form req !! "password" = Some p) :
  (credentials_match (store st) u p →
     ∃ user, users_table (store st) !! u = Some user
             ∧ login req st = logged_in st u (User.role user))
  ∧ (¬ credentials_match (store st) u p →
     login req st = invalid_credentials st)
  ∧ ((∃ r, login req st = logged_in st u r) ↔ credentials_match (store st) u p).
Proof.
  assert (Hrun : login req st =
    match users_table (store st) !! u with
    | Some user => if String.eqb (User.password user) p
                   then logged_in st u (User.role user)
                   else invalid_credentials st
    | None => invalid_credentials st
    end).
  { unfold login. rewrite Hmethod. run_M. rewrite Hu. run_M. rewrite Hp. run_M.
    destruct (users_table (store st) !! u) as [user|];
      [destruct (String.eqb (User.password user) p)|]; reflexivity. }
  unfold credentials_match.
  destruct (users_table (store st) !! u) as [user|] eqn:Huser.
  - destruct (String.eqb_spec (User.password user) p) as [Heq|Hne].
    + split_and!.
      * intros _. by exists user.
      * intros []. by exists user.
      * split; [intros _; by exists user | intros _; by exists (User.role user)].
    + split_and!.
      * intros (user' & ? & ?). congruence.
      * done.
      * rewrite Hrun. split.
        -- intros [r Hr]. discriminate Hr.
        -- intros (user' & ? & ?). congruence.
  - split_and!.
    + intros (? & ? & ?). discriminate.
    + done.
    + rewrite Hrun. split.
      * intros [r Hr]. discriminate Hr.
      * intros (? & ? & ?). discriminate.
Qed.

Lemma login_authenticates_witness :
  login (post "/login" {[ "username" := "alice"; "password" := "pw1" ]})
        (sample_state ∅)
  = logged_in (sample_state ∅) "alice" "patient".
Proof.
  destruct (login_authenticates
              (post "/login" {[ "username" := "alice"; "password" := "pw1" ]})
              (sample_state ∅) "alice" "pw1")
    as (Hok & _ & _); [reflexivity | reflexivity | reflexivity |].
  destruct Hok as (user & Huser & Hlogin).
  - exists alice. split; reflexivity.
  - rewrite Hlogin. vm_compute in Huser. by injection Huser as <-.
Defined.

(** C2. Registering a username that is already on file is answered with
    [already_exists]: the message is flashed, the form shown again, and the
    state, with its three tables, the record of [u] among them, is
    what it was; nothing is written and no mail is sent. *)
Theorem register_existing_user (env : Env) (req : Request) (st : State)
    (r u p : string) (user : User.t)
    (Hmethod : method req = POST)
    (Hr : form req !! "role" = Some r)
    (Hu : form req !! "username" = Some u)
    (Hp : form req !! "password" = Some p)
    (Huser : users_table (store st) !! u = Some user) :
  register env req st = already_exists st
  ∧ store (register env req st).2 = store st
  ∧ users_table (store (register env req st).2) !! u = Some user
  ∧ trace (register env req st).2 = trace st.
Proof.
  assert (Hrun : register env req st = already_exists st).
  { unfold register. rewrite Hmethod. run_M. rewrite Hr. run_M. rewrite Hu.
    run_M. rewrite Hp. run_M. by rewrite Huser. }
  rewrite Hrun. by split_and!.
Qed.

Lemma register_existing_user_witness :
  register sample_env
    (post "/register"
       {[ "role" := "doctor"; "username" := "alice"; "password" := "other" ]})
    (sample_state ∅)
  = already_exists (sample_state ∅).
Proof.
  apply (register_existing_user sample_env _ (sample_state ∅)
           "doctor" "alice" "other" alice); reflexivity.
Defined.

(** ** Scheduling service: listings *)

(** The listing of a patient session is the filtered scan. *)
Lemma patient_appointments_run (req : Request) (st : State) (u : string)
    (Hrole : session st !! "role" = Some "patient")
    (Huser : session st !! "username" = Some u) :
  patient_appointments req st
  = (inr (Render "view_appointment_patient.html"
            (ArgAppointments
               (Table.scan_filter (λ a, Appointment.patient_email a = u)
                  (appointments_table (store st))))), st).
Proof.
  unfold patient_appointments. run_M.
  apply role_is_true in Hrole. rewrite Hrole. simpl. run_M.
  rewrite Huser. run_M. reflexivity.
Qed.

(** C3. For a patient session of username [u], whatever the tables hold,
    [/patient/appointments] renders a list whose members are exactly the
    stored appointments whose [patient_email] is [u]: every one of them is
    listed, and no appointment of another patient is. *)
Theorem patient_appointments_exact (req : Request) (st : State) (u : string)
    (Hrole : session st !! "role" = Some "patient")
    (Huser : session st !! "username" = Some u) :
  ∃ l, patient_appointments req st
       = (inr (Render "view_appointment_patient.html" (ArgAppointments l)), st)
     ∧ ∀ a, a ∈ l ↔
            (∃ k, appointments_table (store st) !! k = Some a)
            ∧ Appointment.patient_email a = u.
Proof.
  eexists. split.
  - by apply patient_appointments_run.
  - intros a.
    apply (elem_of_scan_filter (λ a, Appointment.patient_email a = u)).
Qed.

Lemma patient_appointments_exact_witness :
  ∃ l, patient_appointments (get "/patient/appointments")
         (sample_state alice_session)
       = (inr (Render "view_appointment_patient.html" (ArgAppointments l)),
          sample_state alice_session)
     ∧ checkup ∈ l.
Proof.
  destruct (patient_appointments_exact (get "/patient/appointments")
              (sample_state alice_session) "alice")
    as (l & Hl & Hmem); [reflexivity | reflexivity |].
  exists l. split; [exact Hl|].
  apply Hmem. split; [|reflexivity].
  exists ("a-1", "D1"). reflexivity.
Defined.

(** C7. [/doctor/appointments] serves only a session whose role is
    [doctor] (any other client is sent to [/login]); for a doctor session
    of username [u] it renders exactly the stored appointments whose
    [doctor_id] is [u], hence the empty list when no stored [doctor_id]
    equals the login username. *)
Theorem doctor_appointments_exact (req : Request) (st : State) :
  (session st !! "role" ≠ Some "doctor" →
     doctor_appointments req st = (inr (Redirect "/login"), st))
  ∧ (∀ u, session st !! "role" = Some "doctor" →
          session st !! "username" = Some u →
     ∃ l, doctor_appointments req st
          = (inr (Render "view_appointment_doctor.html" (ArgAppointments l)), st)
        ∧ (∀ a, a ∈ l ↔
                (∃ k, appointments_table (store st) !! k = Some a)
                ∧ Appointment.doctor_id a = u)
        ∧ ((∀ k a, appointments_table (store st) !! k = Some a →
                   Appointment.doctor_id a ≠ u) → l = [])).
Proof.
  split.
  - intros Hrole. apply role_is_false in Hrole.
    unfold doctor_appointments. run_M. by rewrite Hrole.
  - intros u Hrole Huser. apply role_is_true in Hrole.
    eexists. split_and!.
    + unfold doctor_appointments. run_M. rewrite Hrole. simpl. run_M.
      rewrite Huser. run_M. reflexivity.
    + intros a.
      apply (elem_of_scan_filter (λ a, Appointment.doctor_id a = u)).
    + intros Hnone. apply elem_of_nil_inv. intros a Ha.
      apply (elem_of_scan_filter (λ a, Appointment.doctor_id a = u))
        in Ha as [[k Hk] Hid].
      by apply (Hnone k a).
Qed.

Lemma doctor_appointments_exact_witness :
  doctor_appointments (get "/doctor/appointments")
    (sample_state {[ "username" := "drx@x.com"; "role" := "doctor" ]})
  = (inr (Render "view_appointment_doctor.html" (ArgAppointments [])),
     sample_state {[ "username" := "drx@x.com"; "role" := "doctor" ]}).
Proof.
  destruct (doctor_appointments_exact (get "/doctor/appointments")
              (sample_state {[ "username" := "drx@x.com"; "role" := "doctor" ]}))
    as [_ Hdoctor].
  destruct (Hdoctor "drx@x.com") as (l & Hl & _ & Hnil);
    [reflexivity | reflexivity |].
  rewrite Hl, Hnil; [reflexivity|].
  intros k a Hk.
  change (appointments_table _) with
    ({[ ("a-1", "D1") := checkup ]} : gmap (string * string) Appointment.t) in Hk.
  apply lookup_singleton_Some in Hk as [_ <-]. discriminate.
Defined.

(** ** Scheduling service: booking *)

(** What a booking request leaves behind once the record is stored: the
    state after the [put_item] of [item], the calls [calls] to the outside
    world and the success flash. *)
Lemma book_appointment_post (env : Env) (req : Request) (st : State)
    (u d date reason : string)
    (Hmethod : method req = POST)
    (Hrole : session st !! "role" = Some "patient")
    (Huser : session st !! "username" = Some u)
    (Hd : form req !! "doctor_id" = Some d)
    (Hdate : form req !! "date" = Some date)
    (Hreason : form req !! "reason" = Some reason) :
  let item := Appointment.mk (uuid4 env (uuid_calls st)) d u date reason
                "Scheduled" in
  ∃ calls,
    book_appointment env req st
    = (inr (Redirect "/patient"),
       {| session := session st;
          store := {| users_table := users_table (store st);
                      doctors_table := doctors_table (store st);
                      appointments_table :=
                        <[Appointment.key item := item]>
                          (appointments_table (store st)) |};
          uuid_calls := S (uuid_calls st);
          flashes := flashes st ++ [("Appointment booked successfully!", "success")];
          trace := trace st ++ PutAppointment item :: calls |})
    ∧ (calls = [] ∨ (∃ t m s, calls = [SnsPublish t m s]) ∨ (∃ e, calls = [Print e])).
Proof.
  intros item. apply role_is_true in Hrole.
  unfold book_appointment. run_M. rewrite Hrole, Hmethod. simpl. run_M.
  rewrite Hd. run_M. simpl. rewrite Huser. run_M. rewrite Hdate. run_M.
  rewrite Hreason. run_M. simpl.
  unfold send_sns_notification.
  destruct (SNS_TOPIC_ARN env) as [topic|];
    [destruct (String.eqb topic ""); [|destruct (sns_publish env _ _ _)]|];
    run_M; simpl; rewrite <- ?(assoc_L (++)); simpl;
    eexists; (split; [reflexivity|]); eauto 6.
Qed.

(** C4. A booking by a patient session succeeds for every [doctor_id]
    string, nothing being asked of the [doctors] table: the client is sent
    to the patient dashboard, the record carrying that [doctor_id] is
    stored under its key, and the patient's listing served next renders a
    list that contains it. *)
Theorem book_any_doctor_id (env : Env) (req req' : Request) (st : State)
    (u d date reason : string)
    (Hmethod : method req = POST)
    (Hrole : session st !! "role" = Some "patient")
    (Huser : session st !! "username" = Some u)
    (Hd : form req !! "doctor_id" = Some d)
    (Hdate : form req !! "date" = Some date)
    (Hreason : form req !! "reason" = Some reason) :
  let item := Appointment.mk (uuid4 env (uuid_calls st)) d u date reason
                "Scheduled" in
  let st' := (book_appointment env req st).2 in
  (book_appointment env req st).1 = inr (Redirect "/patient")
  ∧ appointments_table (store st') !! (uuid4 env (uuid_calls st), d) = Some item
  ∧ doctors_table (store st') = doctors_table (store st)
  ∧ ∃ l, (patient_appointments req' st').1
         = inr (Render "view_appointment_patient.html" (ArgAppointments l))
       ∧ item ∈ l.
Proof.
  intros item st'.
  destruct (book_appointment_post env req st u d date reason)
    as (calls & Hrun & _); try done.
  subst st'. fold item in Hrun. rewrite Hrun. simpl.
  assert (Hstored : <[Appointment.key item := item]>
                      (appointments_table (store st))
                    !! (uuid4 env (uuid_calls st), d) = Some item)
    by apply lookup_insert_eq.
  split_and!; [done..|].
  match goal with |- context [patient_appointments req' ?s] => set (st1 := s) end.
  rewrite (patient_appointments_run req' st1 u) by done.
  eexists. split; [reflexivity|].
  apply (elem_of_scan_filter (λ a, Appointment.patient_email a = u)).
  split; [|done]. eexists. exact Hstored.
Qed.

Lemma book_any_doctor_id_witness :
  (book_appointment sample_env
     (post "/appointment/book"
        {[ "doctor_id" := "no-such-doctor"; "date" := "2024-01-01";
           "reason" := "checkup" ]})
     (sample_state alice_session)).1
  = inr (Redirect "/patient").
Proof.
  apply (book_any_doctor_id sample_env _ (get "/patient/appointments")
           (sample_state alice_session) "alice" "no-such-doctor" "2024-01-01"
           "checkup"); reflexivity.
Defined.

(** The dispatcher returns normally and touches nothing but the trace,
    where it leaves no [put_item]. *)
Lemma send_sns_notification_absorbs (env : Env) (message : string) (st : State) :
  (send_sns_notification env message st).1 = inr ()
  ∧ kept (send_sns_notification env message st).2 = kept st
  ∧ booked (trace (send_sns_notification env message st).2) = booked (trace st).
Proof.
  unfold send_sns_notification, booked.
  destruct (SNS_TOPIC_ARN env) as [topic|];
    [destruct (String.eqb topic ""); [|destruct (sns_publish env _ _ _)]|];
    run_M; simpl; rewrite ?omap_app; simpl; rewrite ?app_nil_r; done.
Qed.

(** C5. Whatever the notification channel does (a topic or none, a
    publish that returns or raises), a booking request has the same
    response and leaves the same session, tables, flashes and stored
    record; and the dispatcher itself always returns normally, changing
    none of them. *)
Theorem notification_failure_absorbed (env : Env) (arn : option string)
    (publish : string → string → string → option string)
    (req : Request) (st : State) :
  (book_appointment (with_sns arn publish env) req st).1
    = (book_appointment env req st).1
  ∧ kept (book_appointment (with_sns arn publish env) req st).2
    = kept (book_appointment env req st).2
  ∧ booked (trace (book_appointment (with_sns arn publish env) req st).2)
    = booked (trace (book_appointment env req st).2)
  ∧ ∀ message,
      (send_sns_notification (with_sns arn publish env) message st).1 = inr ()
      ∧ kept (send_sns_notification (with_sns arn publish env) message st).2
        = kept st.
Proof.
  split_and!; [..| intros message;
                   destruct (send_sns_notification_absorbs
                               (with_sns arn publish env) message st)
                     as (? & ? & _); done].
  all: unfold book_appointment, send_sns_notification, kept, booked; run_M;
    destruct (role_is "patient" (session st)); simpl; [|done];
    destruct (method req); [done|]; run_M; simpl;
    destruct (form req !! "doctor_id"); run_M; [|done];
    destruct (session st !! "username"); run_M; [|done];
    destruct (form req !! "date"); run_M; [|done];
    destruct (form req !! "reason"); run_M; [|done];
    simpl;
    destruct arn as [topic'|];
    [destruct (String.eqb topic' ""); [|destruct (publish _ _ _)]|];
    (destruct (SNS_TOPIC_ARN env) as [topic|];
     [destruct (String.eqb topic ""); [|destruct (sns_publish env _ _ _)]|]);
    run_M; simpl; rewrite ?omap_app; simpl; rewrite ?app_nil_r; done.
Qed.

(** ** Access gate *)

(** C8. On each role-restricted route, a client whose session has no role
    or a role other than the required one is redirected to [/login], and
    the state, with its three tables, is left as it was. *)
Theorem access_gate (env : Env) (g : Gated) (req : Request) (st : State)
    (Hrole : session st !! "role" ≠ Some (required_role g)) :
  gated_view env g req st = (inr (Redirect "/login"), st).
Proof.
  apply role_is_false in Hrole.
  destruct g; simpl in *; unfold_views; run_M; by rewrite Hrole.
Qed.

Lemma access_gate_witness :
  book_appointment sample_env
    (post "/appointment/book"
       {[ "doctor_id" := "D1"; "date" := "2024-01-01"; "reason" := "checkup" ]})
    (sample_state {[ "username" := "drx@x.com"; "role" := "doctor" ]})
  = (inr (Redirect "/login"),
     sample_state {[ "username" := "drx@x.com"; "role" := "doctor" ]}).
Proof.
  apply (access_gate sample_env BookAppointment). vm_compute. discriminate.
Defined.

(** ** Read-only routes *)

(** C10. The listings and the GET form of booking (which lists the
    doctors) leave the state they run in, the three tables included,
    exactly as it was. *)
Theorem read_only_routes (env : Env) (req : Request) (st : State)
    (p : string) (f : gmap string string) :
  (book_appointment env {| method := GET; path := p; form := f |} st).2 = st
  ∧ (doctor_appointments req st).2 = st
  ∧ (patient_appointments req st).2 = st
  ∧ store (book_appointment env {| method := GET; path := p; form := f |} st).2
    = store st
  ∧ store (doctor_appointments req st).2 = store st
  ∧ store (patient_appointments req st).2 = store st.
Proof.
  assert (Hbook :
    (book_appointment env {| method := GET; path := p; form := f |} st).2 = st).
  { unfold book_appointment. run_M.
    by destruct (role_is "patient" (session st)). }
  assert (Hdoctor : (doctor_appointments req st).2 = st).
  { unfold doctor_appointments. run_M.
    destruct (role_is "doctor" (session st)); simpl; [|done]. run_M.
    by destruct (session st !! "username"). }
  assert (Hpatient : (patient_appointments req st).2 = st).
  { unfold patient_appointments. run_M.
    destruct (role_is "patient" (session st)); simpl; [|done]. run_M.
    by destruct (session st !! "username"). }
  rewrite Hbook, Hdoctor, Hpatient. done.
Qed.

(** ** One request at a time *)

Ltac split_views :=
  unfold step_inv; unfold_views; run_M;
  repeat (case_match; simplify_eq; run_M; simpl in * ).

Ltac close_step :=
  first
    [ exists []; rewrite app_nil_r; simpl; by eauto 10
    | eexists; split;
      [ rewrite <- ?(assoc_L (++)); reflexivity | simpl; by eauto 10 ] ].

Lemma step_inv_unchanged (env : Env) (req : Request) (st : State)
    (r : Raised + Response) :
  step_inv env req st (r, st).
Proof. unfold step_inv. exists []. simpl. rewrite app_nil_r. auto. Qed.

Lemma login_step (env : Env) (req : Request) (st : State) :
  step_inv env req st (login req st).
Proof. split_views; close_step. Qed.

Lemma logout_step (env : Env) (req : Request) (st : State) :
  step_inv env req st (logout req st).
Proof. split_views; close_step. Qed.

Lemma dashboards_step (env : Env) (req : Request) (st : State) :
  step_inv env req st (doctor_dashboard req st)
  ∧ step_inv env req st (patient_dashboard req st).
Proof. split; split_views; close_step. Qed.

Lemma listings_step (env : Env) (req : Request) (st : State) :
  step_inv env req st (doctor_appointments req st)
  ∧ step_inv env req st (patient_appointments req st).
Proof. split; split_views; close_step. Qed.

Lemma book_appointment_step (env : Env) (req : Request) (st : State) :
  step_inv env req st (book_appointment env req st).
Proof. split_views; close_step. Qed.

Lemma doctor_register_step (env : Env) (req : Request) (st : State) :
  step_inv env req st (doctor_register env req st).
Proof. split_views; close_step. Qed.

Lemma register_step (env : Env) (req : Request) (st : State) :
  path req = "/register" →
  step_inv env req st (register env req st).
Proof.
  intros Hpath. split_views; try close_step.
  all: eexists; (split; [rewrite <- ?(assoc_L (++)); reflexivity|]);
    simpl; split; [by auto|]; right; eauto 10.
Qed.

Lemma app_step (env : Env) (req : Request) (st : State) :
  step_inv env req st (app env req st).
Proof.
  unfold app.
  destruct (String.eqb_spec (path req) "/register") as [Hreg|_].
  { rewrite Hreg. simpl. by apply register_step. }
  repeat case_match;
    first [ apply login_step | apply book_appointment_step
          | apply doctor_register_step
          | unfold get_only; case_match;
            first [ apply step_inv_unchanged | apply logout_step
                  | apply dashboards_step | apply listings_step ]
          | apply step_inv_unchanged ].
Qed.

(** ** The server over its lifetime *)

Lemma serve_step (env : Env) (s : gmap string string) (req : Request) (st : State) :
  step_inv env req st (app env req (with_session s st))
  ∧ (serve env req (with_session s st)).2 = (app env req (with_session s st)).2.
Proof.
  split.
  - apply (app_step env req (with_session s st)).
  - unfold serve. by destruct (app env req (with_session s st)).
Qed.

(** The ids written during a run are the images of increasing draw
    indices, all taken from the draws the run can reach. *)
Lemma run_draws (env : Env) (reqs : list (gmap string string * Request)) :
  ∀ st, ∃ l tr,
    l `sublist_of` seq (uuid_calls st) (length reqs)
    ∧ trace (run env reqs st) = (trace st ++ tr)%list
    ∧ booked_ids tr = uuid4 env <$> l.
Proof.
  induction reqs as [|[s req] reqs IH]; intros st.
  - exists [], []. simpl. by rewrite app_nil_r.
  - destruct (serve_step env s req st) as [(tr1 & Htr1 & Hdraw & _) Hserve].
    simpl run. rewrite Hserve.
    set (st1 := (app env req (with_session s st)).2) in *.
    destruct (IH st1) as (l & tr & Hl & Htr & Hids).
    assert (Happ : ∀ ids, booked_ids tr1 = ids →
              booked_ids (tr1 ++ tr) = (ids ++ (uuid4 env <$> l))%list).
    { intros ids <-. rewrite <- Hids. apply omap_app. }
    assert (Htrace : trace (run env reqs st1) = (trace st ++ (tr1 ++ tr))%list).
    { rewrite Htr, Htr1. by rewrite <- (assoc_L (++)). }
    change (length ((s, req) :: reqs)) with (S (length reqs)).
    destruct Hdraw as [[Hc Hnone] | [Hc [Hnone | Hone]]]; rewrite Hc in Hl.
    + exists l, (tr1 ++ tr)%list. split_and!; [|done|by rewrite (Happ [])].
      rewrite seq_S. by apply sublist_inserts_r.
    + exists l, (tr1 ++ tr)%list. split_and!; [|done|by rewrite (Happ [])].
      simpl. by apply sublist_cons.
    + exists (uuid_calls st :: l), (tr1 ++ tr)%list.
      split_and!; [|done|by rewrite (Happ [uuid4 env (uuid_calls st)])].
      simpl. by apply sublist_skip.
Qed.

Lemma run_users (env : Env) (reqs : list (gmap string string * Request)) :
  ∀ st, roles_valid (store st) → roles_submitted_valid reqs →
        roles_valid (store (run env reqs st)).
Proof.
  induction reqs as [|[s req] reqs IH]; intros st Hst Hreqs; [done|].
  apply Forall_cons in Hreqs as [Hreq Hreqs].
  destruct (serve_step env s req st) as [(_ & _ & _ & Husers) Hserve].
  simpl run. rewrite Hserve. apply IH; [|done].
  destruct Husers as [Hsame | (u & p & r & Hmethod & Hpath & Hrole & Hput)];
    intros k user; [by rewrite Hsame; apply Hst|].
  rewrite Hput. intros [[-> <-] | [_ Hold]]%lookup_insert_Some.
  - simpl. by apply (Hreq Hmethod Hpath).
  - by apply (Hst k).
Qed.

(** C6, as stated, fails: the [appointment_id] is [str(uuid.uuid4())]
    as drawn, and [book_appointment] stores it without looking whether it
    is already in use; when the source hands out the same value twice, two
    bookings carry the same [appointment_id]. *)
Lemma booking_reuses_repeated_uuid :
  ¬ NoDup (booked_ids (trace (run repeating_env two_bookings init_state))).
Proof.
  assert (Hids : booked_ids (trace (run repeating_env two_bookings init_state))
                 = [ "1b4e28ba-2fa1-4d3b-a3f5-0d2c1f3e9a77";
                     "1b4e28ba-2fa1-4d3b-a3f5-0d2c1f3e9a77" ])
    by (vm_compute; reflexivity).
  rewrite Hids. intros [Hfresh _]%NoDup_cons.
  apply Hfresh, elem_of_cons. by left.
Qed.

(** C6, amended. Over the lifetime of the server, whatever requests it
    serves, the [appointment_id]s written by its bookings are pairwise
    distinct provided the values the UUID source hands out are pairwise
    distinct: every booking draws a value of its own, and none is used
    twice. *)
Theorem appointment_ids_unique (env : Env)
    (reqs : list (gmap string string * Request))
    (Huuid : NoDup (uuid4 env <$> seq 0 (length reqs))) :
  NoDup (booked_ids (trace (run env reqs init_state))).
Proof.
  destruct (run_draws env reqs init_state) as (l & tr & Hl & Htr & Hids).
  rewrite Htr. simpl. rewrite Hids.
  eapply sublist_NoDup; [exact Huuid | by apply fmap_sublist].
Qed.

Lemma appointment_ids_unique_witness :
  NoDup (booked_ids (trace (run sample_env
    [ (alice_session,
       post "/appointment/book"
         {[ "doctor_id" := "D1"; "date" := "2024-01-01"; "reason" := "checkup" ]});
      (alice_session,
       post "/appointment/book"
         {[ "doctor_id" := "D1"; "date" := "2024-01-01"; "reason" := "checkup" ]}) ]
    init_state))).
Proof.
  apply appointment_ids_unique. vm_compute.
  repeat (constructor; [rewrite ?elem_of_cons, elem_of_nil; intuition discriminate|]).
  constructor.
Defined.

(** The ids of the two bookings above, as computed. *)
Example two_bookings_ids :
  booked_ids (trace (run sample_env
    [ (alice_session,
       post "/appointment/book"
         {[ "doctor_id" := "D1"; "date" := "2024-01-01"; "reason" := "checkup" ]});
      (alice_session,
       post "/appointment/book"
         {[ "doctor_id" := "D1"; "date" := "2024-01-01"; "reason" := "checkup" ]}) ]
    init_state))
  = ["uuid-0"; "uuid-1"].
Proof. vm_compute. reflexivity. Qed.

(** ** Roles on file *)

(** C9, as stated, fails: [register] stores the submitted [role] field as
    it comes, so one POST to [/register] with role [admin] on a fresh
    server leaves a user record whose role is neither [patient] nor
    [doctor]. *)
Lemma register_stores_any_role :
  ¬ roles_valid (store (run sample_env [(∅, register_admin)] init_state)).
Proof.
  intros Hvalid.
  destruct (Hvalid "mallory" (User.mk "mallory" "pw" "admin")) as [H|H].
  - vm_compute. reflexivity.
  - discriminate H.
  - discriminate H.
Qed.

(** C9, amended. [register] stores the role string of the form unchanged;
    so if every user on file has role [patient] or [doctor] and every
    registration request served submits one of these two roles, every user
    on file afterwards has role [patient] or [doctor], whatever else the
    server is asked in between. *)
Theorem roles_valid_preserved (env : Env)
    (reqs : list (gmap string string * Request)) (st : State)
    (Hst : roles_valid (store st))
    (Hreqs : roles_submitted_valid reqs) :
  roles_valid (store (run env reqs st)).
Proof. by apply run_users. Qed.

Lemma roles_valid_preserved_witness :
  roles_valid (store (run sample_env
    [ (∅, post "/register"
            {[ "role" := "patient"; "username" := "bob"; "password" := "pw2" ]});
      (∅, post "/login" {[ "username" := "bob"; "password" := "pw2" ]}) ]
    init_state)).
Proof.
  apply roles_valid_preserved.
  - intros k u Hk. vm_compute in Hk. discriminate Hk.
  - unfold roles_submitted_valid.
    apply Forall_cons_2; [|apply Forall_cons_2; [|apply Forall_nil_2]];
      simpl; intros _ Hpath r Hr.
    + vm_compute in Hr. injection Hr as <-. by left.
    + discriminate Hpath.
Defined.

(** ** The scenario, run *)

(** After the scenario, alice's listing shows exactly the one appointment
    she booked, scheduled, with the fields she submitted. *)
Example scenario_listing :
  (patient_appointments (get "/patient/appointments")
     (with_session alice_session (run sample_env scenario init_state))).1
  = inr (Render "view_appointment_patient.html"
           (ArgAppointments
              [ Appointment.mk "uuid-1" "uuid-0" "alice" "2024-01-01" "checkup"
                  "Scheduled" ])).
Proof. vm_compute. reflexivity. Qed.

(** The login of the scenario hands out the session alice then uses. *)
Example scenario_login :
  session (run sample_env (take 3 scenario) init_state) = alice_session.
Proof. vm_compute. reflexivity. Qed.

(** * Further properties of the routes *)

(** ** Registration *)

(** A registration under a free username, run to its end. *)
Lemma register_post_new (env : Env) (req : Request) (st : State)
    (r u p : string)
    (Hmethod : method req = POST)
    (Hr : form req !! "role" = Some r)
    (Hu : form req !! "username" = Some u)
    (Hp : form req !! "password" = Some p)
    (Hfree : users_table (store st) !! u = None) :
  register env req st
  = (inr (Redirect "/login"),
     {| session := session st;
        store := apply_call (store st) (PutUser (User.mk u p r));
        uuid_calls := uuid_calls st;
        flashes := flashes st
                   ++ [("Registration successful! Please log in.", "success")];
        trace := trace st
                 ++ [ PutUser (User.mk u p r);
                      match mail_send env (welcome_mail env u r) with
                      | None => MailSend (welcome_mail env u r)
                      | Some e => Print ("Email error: " ++ e)
                      end ] |}).
Proof.
  unfold register. rewrite Hmethod. run_M. rewrite Hr. run_M. rewrite Hu.
  run_M. rewrite Hp. run_M. rewrite Hfree. run_M.
  fold (welcome_mail env u r).
  destruct (mail_send env (welcome_mail env u r)); run_M;
    rewrite <- (assoc_L (++)); reflexivity.
Qed.

(** A credential check, run to its end. *)
Lemma login_post_run (req : Request) (st : State) (u p : string)
    (Hmethod : method req = POST)
    (Hu : form req !! "username" = Some u)
    (Hp : form req !! "password" = Some p) :
  login req st
  = match users_table (store st) !! u with
    | Some user => if String.eqb (User.password user) p
                   then logged_in st u (User.role user)
                   else invalid_credentials st
    | None => invalid_credentials st
    end.
Proof.
  unfold login. rewrite Hmethod. run_M. rewrite Hu. run_M. rewrite Hp. run_M.
  destruct (users_table (store st) !! u) as [user|];
    [destruct (String.eqb (User.password user) p)|]; reflexivity.
Qed.

(** X1. A POST to [/register] under a username that is not on file stores
    the record [{username, password, role}] with the three form fields
    as submitted (the password as it is), touches no other table nor the
    session, flashes the success message and sends the client to
    [/login]; this holds whatever the mail collaborator does. *)
Theorem register_new_user (env : Env) (req : Request) (st : State)
    (r u p : string)
    (Hmethod : method req = POST)
    (Hr : form req !! "role" = Some r)
    (Hu : form req !! "username" = Some u)
    (Hp : form req !! "password" = Some p)
    (Hfree : users_table (store st) !! u = None) :
  let st' := (register env req st).2 in
  (register env req st).1 = inr (Redirect "/login")
  ∧ users_table (store st') = <[u := User.mk u p r]> (users_table (store st))
  ∧ doctors_table (store st') = doctors_table (store st)
  ∧ appointments_table (store st') = appointments_table (store st)
  ∧ session st' = session st
  ∧ flashes st'
    = (flashes st
       ++ [("Registration successful! Please log in.", "success")])%list.
Proof.
  intros st'. subst st'.
  rewrite (register_post_new env req st r u p) by done. by split_and!.
Qed.

Lemma register_new_user_witness :
  users_table (store (register sample_env
     (post "/register"
        {[ "role" := "doctor"; "username" := "bob"; "password" := "pw2" ]})
     (sample_state ∅)).2)
  = <["bob" := User.mk "bob" "pw2" "doctor"]> (users_table sample_store).
Proof.
  apply (register_new_user sample_env _ (sample_state ∅) "doctor" "bob" "pw2");
    reflexivity.
Defined.

(** X2. The welcome mail of a successful registration is built after the
    record is stored, addressed to the username alone, and handed to the
    mail collaborator once; when that raises, the error is printed and
    nothing else is called. *)
Theorem register_welcome_mail (env : Env) (req : Request) (st : State)
    (r u p : string)
    (Hmethod : method req = POST)
    (Hr : form req !! "role" = Some r)
    (Hu : form req !! "username" = Some u)
    (Hp : form req !! "password" = Some p)
    (Hfree : users_table (store st) !! u = None) :
  Message.recipients (welcome_mail env u r) = [u]
  ∧ (mail_send env (welcome_mail env u r) = None →
     trace (register env req st).2
     = (trace st
        ++ [PutUser (User.mk u p r); MailSend (welcome_mail env u r)])%list)
  ∧ (∀ e, mail_send env (welcome_mail env u r) = Some e →
     trace (register env req st).2
     = (trace st
        ++ [PutUser (User.mk u p r); Print ("Email error: " +:+ e)])%list).
Proof.
  rewrite (register_post_new env req st r u p) by done.
  split_and!; [done | intros -> | intros e ->]; reflexivity.
Qed.

Lemma register_welcome_mail_witness :
  trace (register sample_env
     (post "/register"
        {[ "role" := "doctor"; "username" := "bob"; "password" := "pw2" ]})
     (sample_state ∅)).2
  = [ PutUser (User.mk "bob" "pw2" "doctor");
      Print "Email error: SMTPAuthenticationError" ].
Proof.
  destruct (register_welcome_mail sample_env
     (post "/register"
        {[ "role" := "doctor"; "username" := "bob"; "password" := "pw2" ]})
     (sample_state ∅) "doctor" "bob" "pw2") as (_ & _ & Hfail);
    [reflexivity..|].
  apply (Hfail "SMTPAuthenticationError"). reflexivity.
Defined.

(** X3. Registration and login round trip: once [u] has registered with
    password [p] and role [r], a login with [u] and [p] succeeds and puts
    the identity [{username: u, role: r}] in the session. *)
Theorem register_then_login (env : Env) (req req' : Request) (st : State)
    (r u p : string)
    (Hmethod : method req = POST)
    (Hr : form req !! "role" = Some r)
    (Hu : form req !! "username" = Some u)
    (Hp : form req !! "password" = Some p)
    (Hfree : users_table (store st) !! u = None)
    (Hmethod' : method req' = POST)
    (Hu' : form req' !! "username" = Some u)
    (Hp' : form req' !! "password" = Some p) :
  login req' (register env req st).2
  = logged_in (register env req st).2 u r.
Proof.
  rewrite (login_post_run req' _ u p) by done.
  rewrite (register_post_new env req st r u p) by done.
  simpl. unfold Table.put_item. rewrite lookup_insert_eq. simpl.
  by rewrite String.eqb_refl.
Qed.

Lemma register_then_login_witness :
  login (post "/login" {[ "username" := "bob"; "password" := "pw2" ]})
    (register sample_env
       (post "/register"
          {[ "role" := "doctor"; "username" := "bob"; "password" := "pw2" ]})
       (sample_state ∅)).2
  = logged_in
      (register sample_env
         (post "/register"
            {[ "role" := "doctor"; "username" := "bob"; "password" := "pw2" ]})
         (sample_state ∅)).2 "bob" "doctor".
Proof.
  apply (register_then_login sample_env _ _ (sample_state ∅) "doctor" "bob" "pw2");
    reflexivity.
Defined.

(** X4. A POST to [/register] that lacks [role], [username] or [password]
    is aborted with the error of a missing form key and leaves the state
    as it was: no user is stored and no mail is sent. *)
Theorem register_missing_field (env : Env) (req : Request) (st : State)
    (Hmethod : method req = POST)
    (Hmissing : form req !! "role" = None ∨ form req !! "username" = None
                ∨ form req !! "password" = None) :
  ∃ k, register env req st = (inl (BadRequestKeyError k), st)
       ∧ form req !! k = None
       ∧ (path req = "/register" → serve env req st = (BadRequest k, st)).
Proof.
  assert (Hreg : ∃ k, register env req st = (inl (BadRequestKeyError k), st)
                      ∧ form req !! k = None).
  { unfold register. rewrite Hmethod. run_M.
    destruct (form req !! "role") eqn:Er; run_M; [|by exists "role"].
    destruct (form req !! "username") eqn:Eu; run_M; [|by exists "username"].
    destruct (form req !! "password") eqn:Ep; run_M; [|by exists "password"].
    by destruct Hmissing as [?|[?|?]]. }
  destruct Hreg as (k & Hreg & Hk). exists k. split_and!; [done..|].
  intros Hpath. unfold serve, app. rewrite Hpath. simpl. by rewrite Hreg.
Qed.

Lemma register_missing_field_witness :
  ∃ k, register sample_env
         (post "/register" {[ "role" := "patient"; "username" := "bob" ]})
         (sample_state ∅)
       = (inl (BadRequestKeyError k), sample_state ∅).
Proof.
  destruct (register_missing_field sample_env
              (post "/register" {[ "role" := "patient"; "username" := "bob" ]})
              (sample_state ∅)) as (k & Hk & _); [reflexivity| |by exists k].
  right. right. reflexivity.
Defined.

(** ** Login, logout and the dashboards *)

(** A view behind the gate turns away a session whose role is not the
    required one. *)
Lemma gate_closed (env : Env) (g : Gated) (req : Request) (st : State) :
  role_is (required_role g) (session st) = false →
  gated_view env g req st = (inr (Redirect "/login"), st).
Proof.
  intros Hrole. destruct g; simpl in *; unfold_views; run_M; by rewrite Hrole.
Qed.

(** X5. After a successful login the dashboard of the user's role greets
    the client by the username it logged in with, and the dashboard of the
    other role sends it back to [/login]. *)
Theorem login_then_dashboard (req req' : Request) (st : State) (u p : string)
    (user : User.t)
    (Hmethod : method req = POST)
    (Hu : form req !! "username" = Some u)
    (Hp : form req !! "password" = Some p)
    (Huser : users_table (store st) !! u = Some user)
    (Hpw : User.password user = p) :
  let st' := (login req st).2 in
  (User.role user = "patient" →
     patient_dashboard req' st'
     = (inr (Render "patient_dashboard.html" (ArgUsername u)), st')
     ∧ doctor_dashboard req' st' = (inr (Redirect "/login"), st'))
  ∧ (User.role user = "doctor" →
     doctor_dashboard req' st'
     = (inr (Render "doctor_dashboard.html" (ArgUsername u)), st')
     ∧ patient_dashboard req' st' = (inr (Redirect "/login"), st')).
Proof.
  intros st'. subst st'.
  rewrite (login_post_run req st u p) by done.
  rewrite Huser, Hpw, String.eqb_refl.
  unfold logged_in, with_session, patient_dashboard, doctor_dashboard, role_is.
  split; intros Hrole; rewrite Hrole; run_M;
    rewrite lookup_insert_eq; simpl; run_M;
    rewrite lookup_insert_ne, lookup_insert_eq by done; done.
Qed.

Lemma login_then_dashboard_witness :
  patient_dashboard (get "/patient")
    (login (post "/login" {[ "username" := "alice"; "password" := "pw1" ]})
           (sample_state ∅)).2
  = (inr (Render "patient_dashboard.html" (ArgUsername "alice")),
     (login (post "/login" {[ "username" := "alice"; "password" := "pw1" ]})
            (sample_state ∅)).2).
Proof.
  destruct (login_then_dashboard
              (post "/login" {[ "username" := "alice"; "password" := "pw1" ]})
              (get "/patient") (sample_state ∅) "alice" "pw1" alice)
    as [Hpatient _]; [reflexivity..|].
  by destruct Hpatient.
Defined.

(** X6. [/logout] empties the session and sends the client to [/],
    leaving the tables alone; every role-restricted view asked next with
    that session redirects to [/login]. *)
Theorem logout_closes_gate (env : Env) (g : Gated) (req req' : Request)
    (st : State) :
  let st' := (logout req st).2 in
  (logout req st).1 = inr (Redirect "/")
  ∧ session st' = ∅
  ∧ store st' = store st
  ∧ gated_view env g req' st' = (inr (Redirect "/login"), st').
Proof.
  intros st'. split_and!; [done..|].
  apply gate_closed. subst st'. unfold logout, role_is. run_M.
  by rewrite lookup_empty.
Qed.

(** ** Routing *)



(** X8. The six routes declared without [methods] answer a POST with
    405 and do not run their view: in particular a POST to [/logout]
    leaves the session in place. *)
Theorem post_to_get_only_route (env : Env) (req : Request) (st : State)
    (Hpath : path req ∈ get_only_paths)
    (Hmethod : method req = POST) :
  serve env req st = (MethodNotAllowed, st).
Proof.
  unfold get_only_paths in Hpath. rewrite !elem_of_cons, elem_of_nil in Hpath.
  unfold serve, app, get_only. rewrite Hmethod.
  destruct Hpath as [E|[E|[E|[E|[E|[E|[]]]]]]]; rewrite E; reflexivity.
Qed.

Lemma post_to_get_only_route_witness :
  serve sample_env (post "/logout" ∅) (sample_state alice_session)
  = (MethodNotAllowed, sample_state alice_session).
Proof.
  apply post_to_get_only_route; [|reflexivity].
  unfold get_only_paths. simpl. rewrite !elem_of_cons. auto 10.
Defined.

(** ** Booking *)

(** The listing of a doctor session is the filtered scan. *)
Lemma doctor_appointments_run (req : Request) (st : State) (u : string)
    (Hrole : session st !! "role" = Some "doctor")
    (Huser : session st !! "username" = Some u) :
  doctor_appointments req st
  = (inr (Render "view_appointment_doctor.html"
            (ArgAppointments
               (Table.scan_filter (λ a, Appointment.doctor_id a = u)
                  (appointments_table (store st))))), st).
Proof.
  unfold doctor_appointments. run_M.
  apply role_is_true in Hrole. rewrite Hrole. simpl. run_M.
  rewrite Huser. run_M. reflexivity.
Qed.

(** Scanning after a [put_item] under a free key: the old items, and the
    new one when it passes the filter. *)
Lemma elem_of_scan_filter_put `{Countable K} {V} (P : V → Prop)
    `{∀ v, Decision (P v)} (tbl : gmap K V) (k : K) (item v : V) :
  tbl !! k = None →
  v ∈ Table.scan_filter P (<[k := item]> tbl)
  ↔ v ∈ Table.scan_filter P tbl ∨ (v = item ∧ P item).
Proof.
  intros Hfree. rewrite !elem_of_scan_filter. split.
  - intros [[k' Hk'] HP]. apply lookup_insert_Some in Hk' as [[_ <-]|[_ Hk']].
    + by right.
    + left. split; [by exists k'|done].
  - intros [[[k' Hk'] HP] | [-> HP]].
    + split; [|done]. exists k'. rewrite lookup_insert_ne; [done|].
      intros <-. congruence.
    + split; [|done]. exists k. apply lookup_insert_eq.
Qed.

(** X9. A booking POST of a patient session that lacks [doctor_id],
    [date] or [reason] (or whose session has no [username]) is aborted:
    no appointment is stored, nothing is published and nothing flashed;
    the UUID drawn at the start of the request is spent all the same. *)
Theorem book_missing_field (env : Env) (req : Request) (st : State)
    (Hmethod : method req = POST)
    (Hrole : session st !! "role" = Some "patient")
    (Hmissing : form req !! "doctor_id" = None
                ∨ session st !! "username" = None
                ∨ form req !! "date" = None
                ∨ form req !! "reason" = None) :
  let st' := (book_appointment env req st).2 in
  (∃ e, (book_appointment env req st).1 = inl e)
  ∧ store st' = store st
  ∧ trace st' = trace st
  ∧ flashes st' = flashes st
  ∧ uuid_calls st' = S (uuid_calls st).
Proof.
  apply role_is_true in Hrole.
  unfold book_appointment. run_M. rewrite Hrole, Hmethod. simpl. run_M.
  destruct (form req !! "doctor_id"); run_M; [|by eauto 10].
  destruct (session st !! "username"); run_M; [|by eauto 10].
  destruct (form req !! "date"); run_M; [|by eauto 10].
  destruct (form req !! "reason"); run_M; [|by eauto 10].
  by destruct Hmissing as [?|[?|[?|?]]].
Qed.

Lemma book_missing_field_witness :
  store (book_appointment sample_env
           (post "/appointment/book"
              {[ "doctor_id" := "D1"; "reason" := "checkup" ]})
           (sample_state alice_session)).2
  = sample_store.
Proof.
  apply (book_missing_field sample_env
           (post "/appointment/book"
              {[ "doctor_id" := "D1"; "reason" := "checkup" ]})
           (sample_state alice_session)); [reflexivity..|].
  right. right. left. reflexivity.
Defined.

(** X10. A booking writes one item and only that: the [users] and
    [doctors] tables are as before, every appointment stored under another
    key is as before, and when the key (fresh id, doctor id) was free the
    table has one item more. *)
Theorem book_writes_one_item (env : Env) (req : Request) (st : State)
    (u d date reason : string)
    (Hmethod : method req = POST)
    (Hrole : session st !! "role" = Some "patient")
    (Huser : session st !! "username" = Some u)
    (Hd : form req !! "doctor_id" = Some d)
    (Hdate : form req !! "date" = Some date)
    (Hreason : form req !! "reason" = Some reason) :
  let st' := (book_appointment env req st).2 in
  users_table (store st') = users_table (store st)
  ∧ doctors_table (store st') = doctors_table (store st)
  ∧ (∀ k, k ≠ (uuid4 env (uuid_calls st), d) →
          appointments_table (store st') !! k
          = appointments_table (store st) !! k)
  ∧ (appointments_table (store st) !! (uuid4 env (uuid_calls st), d) = None →
     size (appointments_table (store st'))
     = S (size (appointments_table (store st)))).
Proof.
  intros st'. subst st'.
  destruct (book_appointment_post env req st u d date reason)
    as (calls & Hrun & _); try done.
  rewrite Hrun. simpl. split_and!; [done..| |].
  - intros k Hk. by rewrite lookup_insert_ne.
  - intros Hfree. by rewrite map_size_insert_None.
Qed.

Lemma book_writes_one_item_witness :
  size (appointments_table (store (book_appointment sample_env
     (post "/appointment/book"
        {[ "doctor_id" := "D1"; "date" := "2024-02-02"; "reason" := "flu" ]})
     (sample_state alice_session)).2))
  = 2.
Proof.
  destruct (book_writes_one_item sample_env
     (post "/appointment/book"
        {[ "doctor_id" := "D1"; "date" := "2024-02-02"; "reason" := "flu" ]})
     (sample_state alice_session) "alice" "D1" "2024-02-02" "flu")
    as (_ & _ & _ & Hsize); [reflexivity..|].
  rewrite Hsize; reflexivity.
Defined.

(** X11. When the key of the new appointment is free, a booking by the
    patient [u] adds exactly the new record to the listing of [u] and
    leaves the listing of every other patient with the members it had. *)
Theorem book_changes_own_listing_only (env : Env) (req req' : Request)
    (st : State) (u d date reason : string)
    (s' : gmap string string) (u' : string)
    (Hmethod : method req = POST)
    (Hrole : session st !! "role" = Some "patient")
    (Huser : session st !! "username" = Some u)
    (Hd : form req !! "doctor_id" = Some d)
    (Hdate : form req !! "date" = Some date)
    (Hreason : form req !! "reason" = Some reason)
    (Hfree : appointments_table (store st) !! (uuid4 env (uuid_calls st), d)
             = None)
    (Hrole' : s' !! "role" = Some "patient")
    (Huser' : s' !! "username" = Some u') :
  let item := Appointment.mk (uuid4 env (uuid_calls st)) d u date reason
                "Scheduled" in
  let st' := (book_appointment env req st).2 in
  ∃ l l',
    (patient_appointments req' (with_session s' st)).1
    = inr (Render "view_appointment_patient.html" (ArgAppointments l))
    ∧ (patient_appointments req' (with_session s' st')).1
      = inr (Render "view_appointment_patient.html" (ArgAppointments l'))
    ∧ ∀ a, a ∈ l' ↔ a ∈ l ∨ (a = item ∧ u' = u).
Proof.
  intros item st'. subst st'.
  destruct (book_appointment_post env req st u d date reason)
    as (calls & Hrun & _); try done.
  fold item in Hrun. rewrite Hrun.
  rewrite (patient_appointments_run req' (with_session s' st) u') by done.
  rewrite (patient_appointments_run req' (with_session s' _) u') by done.
  do 2 eexists. split_and!; [reflexivity..|].
  intros a. simpl.
  rewrite (elem_of_scan_filter_put
             (λ a, Appointment.patient_email a = u')) by done.
  simpl. split; (intros [?|[-> ?]]; [by left | by right]).
Qed.

Lemma book_changes_own_listing_only_witness :
  ∃ l',
    (patient_appointments (get "/patient/appointments")
       (with_session {[ "username" := "bob"; "role" := "patient" ]}
          (book_appointment sample_env
             (post "/appointment/book"
                {[ "doctor_id" := "D1"; "date" := "2024-02-02";
                   "reason" := "flu" ]})
             (sample_state alice_session)).2)).1
    = inr (Render "view_appointment_patient.html" (ArgAppointments l'))
    ∧ l' = [].
Proof.
  destruct (book_changes_own_listing_only sample_env
     (post "/appointment/book"
        {[ "doctor_id" := "D1"; "date" := "2024-02-02"; "reason" := "flu" ]})
     (get "/patient/appointments")
     (sample_state alice_session) "alice" "D1" "2024-02-02" "flu"
     {[ "username" := "bob"; "role" := "patient" ]} "bob")
    as (l & l' & Hl & Hl' & Hmem); [reflexivity..|].
  exists l'. split; [exact Hl'|].
  apply elem_of_nil_inv. intros a Ha. apply Hmem in Ha as [Ha|[_ Hbob]].
  - vm_compute in Hl. injection Hl as <-. by apply elem_of_nil in Ha.
  - discriminate Hbob.
Defined.

(** X12. A booking made with [doctor_id] [d] shows up in the listing of
    the doctor session whose login username is [d]. *)
Theorem book_then_doctor_listing (env : Env) (req req' : Request)
    (st : State) (u d date reason : string) (s' : gmap string string)
    (Hmethod : method req = POST)
    (Hrole : session st !! "role" = Some "patient")
    (Huser : session st !! "username" = Some u)
    (Hd : form req !! "doctor_id" = Some d)
    (Hdate : form req !! "date" = Some date)
    (Hreason : form req !! "reason" = Some reason)
    (Hrole' : s' !! "role" = Some "doctor")
    (Huser' : s' !! "username" = Some d) :
  let item := Appointment.mk (uuid4 env (uuid_calls st)) d u date reason
                "Scheduled" in
  ∃ l, (doctor_appointments req'
          (with_session s' (book_appointment env req st).2)).1
       = inr (Render "view_appointment_doctor.html" (ArgAppointments l))
     ∧ item ∈ l.
Proof.
  intros item.
  destruct (book_appointment_post env req st u d date reason)
    as (calls & Hrun & _); try done.
  fold item in Hrun. rewrite Hrun.
  rewrite (doctor_appointments_run req' (with_session s' _) d) by done.
  eexists. split; [reflexivity|]. simpl.
  apply (elem_of_scan_filter (λ a, Appointment.doctor_id a = d)).
  split; [|done]. eexists. apply lookup_insert_eq.
Qed.

Lemma book_then_doctor_listing_witness :
  ∃ l, (doctor_appointments (get "/doctor/appointments")
          (with_session {[ "username" := "D1"; "role" := "doctor" ]}
             (book_appointment sample_env
                (post "/appointment/book"
                   {[ "doctor_id" := "D1"; "date" := "2024-02-02";
                      "reason" := "flu" ]})
                (sample_state alice_session)).2)).1
       = inr (Render "view_appointment_doctor.html" (ArgAppointments l))
     ∧ Appointment.mk "uuid-0" "D1" "alice" "2024-02-02" "flu" "Scheduled" ∈ l.
Proof.
  apply (book_then_doctor_listing sample_env
     (post "/appointment/book"
        {[ "doctor_id" := "D1"; "date" := "2024-02-02"; "reason" := "flu" ]})
     (get "/doctor/appointments")
     (sample_state alice_session) "alice" "D1" "2024-02-02" "flu"
     {[ "username" := "D1"; "role" := "doctor" ]}); reflexivity.
Defined.

(** X13. What a booking tells the notification channel: with a topic
    configured and a publish that returns, exactly one message is
    published, after the record is stored, naming the doctor id, the date
    and the patient; with no topic (unset or empty) [sns.publish] is not
    called at all; a publish that raises leaves one printed line. *)
Theorem booking_notification (env : Env) (req : Request) (st : State)
    (u d date reason : string)
    (Hmethod : method req = POST)
    (Hrole : session st !! "role" = Some "patient")
    (Huser : session st !! "username" = Some u)
    (Hd : form req !! "doctor_id" = Some d)
    (Hdate : form req !! "date" = Some date)
    (Hreason : form req !! "reason" = Some reason) :
  let item := Appointment.mk (uuid4 env (uuid_calls st)) d u date reason
                "Scheduled" in
  let st' := (book_appointment env req st).2 in
  (∀ topic, SNS_TOPIC_ARN env = Some topic → topic ≠ "" →
     sns_publish env topic (booking_message d date u) "MedTrack Notification"
     = None →
     trace st'
     = (trace st
        ++ [ PutAppointment item;
             SnsPublish topic (booking_message d date u)
               "MedTrack Notification" ])%list)
  ∧ (SNS_TOPIC_ARN env = None ∨ SNS_TOPIC_ARN env = Some "" →
     trace st' = (trace st ++ [PutAppointment item])%list)
  ∧ (∀ topic e, SNS_TOPIC_ARN env = Some topic → topic ≠ "" →
     sns_publish env topic (booking_message d date u) "MedTrack Notification"
     = Some e →
     trace st'
     = (trace st ++ [PutAppointment item; Print ("SNS error: " +:+ e)])%list).
Proof.
  intros item st'. subst st'. apply role_is_true in Hrole.
  unfold book_appointment. run_M. rewrite Hrole, Hmethod. simpl. run_M.
  rewrite Hd. run_M. simpl. rewrite Huser. run_M. rewrite Hdate. run_M.
  rewrite Hreason. run_M. simpl.
  fold (booking_message d date u). fold item.
  unfold send_sns_notification.
  split_and!.
  - intros topic -> Htopic%String.eqb_neq ->. rewrite Htopic. run_M.
    by rewrite <- (assoc_L (++)).
  - intros [-> | ->]; simpl; run_M; done.
  - intros topic e -> Htopic%String.eqb_neq ->. rewrite Htopic. run_M.
    by rewrite <- (assoc_L (++)).
Qed.

Lemma booking_notification_witness :
  trace (book_appointment sample_env
     (post "/appointment/book"
        {[ "doctor_id" := "D1"; "date" := "2024-02-02"; "reason" := "flu" ]})
     (sample_state alice_session)).2
  = [ PutAppointment
        (Appointment.mk "uuid-0" "D1" "alice" "2024-02-02" "flu" "Scheduled");
      Print "SNS error: EndpointConnectionError" ].
Proof.
  destruct (booking_notification sample_env
     (post "/appointment/book"
        {[ "doctor_id" := "D1"; "date" := "2024-02-02"; "reason" := "flu" ]})
     (sample_state alice_session) "alice" "D1" "2024-02-02" "flu")
    as (_ & _ & Hfail); [reflexivity..|].
  apply (Hfail "arn:aws:sns:us-east-1:000000000000:medtrack"
               "EndpointConnectionError"); [reflexivity|discriminate|reflexivity].
Defined.

(** ** Doctor profiles *)

(** A doctor registration, run to its end. *)
Lemma doctor_register_post (env : Env) (req : Request) (st : State)
    (n sp e : string)
    (Hmethod : method req = POST)
    (Hn : form req !! "name" = Some n)
    (Hsp : form req !! "specialization" = Some sp)
    (He : form req !! "email" = Some e) :
  doctor_register env req st
  = (inr (Redirect "/login"),
     {| session := session st;
        store := apply_call (store st)
                   (PutDoctor (Doctor.mk (uuid4 env (uuid_calls st)) n sp e));
        uuid_calls := S (uuid_calls st);
        flashes := flashes st ++ [("Doctor registered successfully!", "success")];
        trace := trace st
                 ++ [PutDoctor (Doctor.mk (uuid4 env (uuid_calls st)) n sp e)] |}).
Proof.
  unfold doctor_register. rewrite Hmethod. run_M. rewrite Hn. run_M.
  rewrite Hsp. run_M. rewrite He. run_M. reflexivity.
Qed.

(** X14. [/doctor/register] asks nothing of the session: for any client,
    logged in or not, a POST with [name], [specialization] and [email]
    stores the profile under a freshly drawn [doctor_id] and redirects to
    [/login]; no user account is created and no appointment touched, and
    the session is as it was. *)
Theorem doctor_register_any_session (env : Env) (req : Request) (st : State)
    (n sp e : string)
    (Hmethod : method req = POST)
    (Hn : form req !! "name" = Some n)
    (Hsp : form req !! "specialization" = Some sp)
    (He : form req !! "email" = Some e) :
  let id := uuid4 env (uuid_calls st) in
  let st' := (doctor_register env req st).2 in
  (doctor_register env req st).1 = inr (Redirect "/login")
  ∧ doctors_table (store st')
    = <[id := Doctor.mk id n sp e]> (doctors_table (store st))
  ∧ users_table (store st') = users_table (store st)
  ∧ appointments_table (store st') = appointments_table (store st)
  ∧ session st' = session st.
Proof.
  intros id st'. subst st'.
  rewrite (doctor_register_post env req st n sp e) by done. by split_and!.
Qed.

Lemma doctor_register_any_session_witness :
  doctors_table (store (doctor_register sample_env
     (post "/doctor/register"
        {[ "name" := "Dr. X"; "specialization" := "Cardio";
           "email" := "x@x.com" ]})
     (sample_state ∅)).2)
  = {[ "uuid-0" := Doctor.mk "uuid-0" "Dr. X" "Cardio" "x@x.com" ]}.
Proof.
  destruct (doctor_register_any_session sample_env
     (post "/doctor/register"
        {[ "name" := "Dr. X"; "specialization" := "Cardio";
           "email" := "x@x.com" ]})
     (sample_state ∅) "Dr. X" "Cardio" "x@x.com") as (_ & Hdoctors & _);
    [reflexivity..|].
  rewrite Hdoctors. reflexivity.
Defined.

(** X15. The GET form of booking, asked by a patient session, renders
    the doctors of the table, all of them and nothing else, with no
    filter. *)
Theorem booking_form_lists_doctors (env : Env) (req : Request) (st : State)
    (Hmethod : method req = GET)
    (Hrole : session st !! "role" = Some "patient") :
  ∃ l, book_appointment env req st
       = (inr (Render "book_appointment.html" (ArgDoctors l)), st)
     ∧ ∀ d, d ∈ l ↔ ∃ k, doctors_table (store st) !! k = Some d.
Proof.
  apply role_is_true in Hrole. eexists. split.
  - unfold book_appointment. run_M. rewrite Hrole, Hmethod. simpl. run_M.
    reflexivity.
  - intros d. apply elem_of_scan.
Qed.

Lemma booking_form_lists_doctors_witness :
  book_appointment sample_env (get "/appointment/book")
    (sample_state alice_session)
  = (inr (Render "book_appointment.html" (ArgDoctors [])),
     sample_state alice_session).
Proof.
  destruct (booking_form_lists_doctors sample_env (get "/appointment/book")
              (sample_state alice_session)) as (l & Hl & Hmem);
    [reflexivity..|].
  rewrite Hl. replace l with (@nil Doctor.t); [reflexivity|].
  symmetry. apply elem_of_nil_inv. intros d [k Hk]%Hmem.
  vm_compute in Hk. discriminate Hk.
Defined.

(** X16. A doctor profile just registered is offered on the booking form
    of a patient session. *)
Theorem doctor_register_then_listed (env : Env) (req req' : Request)
    (st : State) (n sp e : string) (s' : gmap string string)
    (Hmethod : method req = POST)
    (Hn : form req !! "name" = Some n)
    (Hsp : form req !! "specialization" = Some sp)
    (He : form req !! "email" = Some e)
    (Hmethod' : method req' = GET)
    (Hrole' : s' !! "role" = Some "patient") :
  ∃ l, (book_appointment env req'
          (with_session s' (doctor_register env req st).2)).1
       = inr (Render "book_appointment.html" (ArgDoctors l))
     ∧ Doctor.mk (uuid4 env (uuid_calls st)) n sp e ∈ l.
Proof.
  rewrite (doctor_register_post env req st n sp e) by done.
  apply role_is_true in Hrole'. eexists. split.
  - unfold book_appointment, with_session. run_M. rewrite Hrole', Hmethod'.
    simpl. run_M. reflexivity.
  - simpl. apply elem_of_scan. eexists. apply lookup_insert_eq.
Qed.

Lemma doctor_register_then_listed_witness :
  ∃ l, (book_appointment sample_env (get "/appointment/book")
          (with_session alice_session
             (doctor_register sample_env
                (post "/doctor/register"
                   {[ "name" := "Dr. X"; "specialization" := "Cardio";
                      "email" := "x@x.com" ]})
                (sample_state ∅)).2)).1
       = inr (Render "book_appointment.html" (ArgDoctors l))
     ∧ Doctor.mk "uuid-0" "Dr. X" "Cardio" "x@x.com" ∈ l.
Proof.
  apply (doctor_register_then_listed sample_env
     (post "/doctor/register"
        {[ "name" := "Dr. X"; "specialization" := "Cardio";
           "email" := "x@x.com" ]})
     (get "/appointment/book") (sample_state ∅) "Dr. X" "Cardio" "x@x.com"
     alice_session); reflexivity.
Defined.

(** ** What a request can write *)

Ltac close_writes :=
  unfold replay, booked; simpl;
  first
    [ exists []; rewrite app_nil_r; simpl; split_and!;
      [done | done | by auto | left; done]
    | eexists; split_and!;
      [ rewrite <- ?(assoc_L (++)); reflexivity
      | reflexivity
      | simpl; by auto
      | simpl; by eauto 14 ] ].

Lemma views_write (env : Env) (req : Request) (st : State) :
  step_writes env st (home req st)
  ∧ step_writes env st (register env req st)
  ∧ step_writes env st (login req st)
  ∧ step_writes env st (doctor_dashboard req st)
  ∧ step_writes env st (patient_dashboard req st)
  ∧ step_writes env st (logout req st)
  ∧ step_writes env st (book_appointment env req st)
  ∧ step_writes env st (doctor_appointments req st)
  ∧ step_writes env st (patient_appointments req st)
  ∧ step_writes env st (doctor_register env req st).
Proof.
  split_and!; unfold step_writes; unfold_views; run_M;
    repeat (case_match; simplify_eq; run_M; simpl in * ); close_writes.
Qed.

Lemma app_writes (env : Env) (req : Request) (st : State) :
  step_writes env st (app env req st).
Proof.
  destruct (views_write env req st)
    as (? & ? & ? & ? & ? & ? & ? & ? & ? & ?).
  assert (Hnone : ∀ r, step_writes env st (inr r, st)).
  { intros r. unfold step_writes. close_writes. }
  unfold app, get_only. repeat case_match; done.
Qed.

Lemma views_quiet (env : Env) (req : Request) (st : State) :
  (quiet st (home req st).2 ∧ flashes (home req st).2 = flashes st)
  ∧ (quiet st (doctor_dashboard req st).2
     ∧ flashes (doctor_dashboard req st).2 = flashes st)
  ∧ (quiet st (patient_dashboard req st).2
     ∧ flashes (patient_dashboard req st).2 = flashes st)
  ∧ (quiet st (logout req st).2 ∧ flashes (logout req st).2 = [])
  ∧ (quiet st (doctor_appointments req st).2
     ∧ flashes (doctor_appointments req st).2 = flashes st)
  ∧ (quiet st (patient_appointments req st).2
     ∧ flashes (patient_appointments req st).2 = flashes st)
  ∧ quiet st (login req st).2
  ∧ (method req = GET →
     flashes (login req st).2 = flashes st
     ∧ (quiet st (register env req st).2
        ∧ flashes (register env req st).2 = flashes st)
     ∧ (quiet st (book_appointment env req st).2
        ∧ flashes (book_appointment env req st).2 = flashes st)
     ∧ (quiet st (doctor_register env req st).2
        ∧ flashes (doctor_register env req st).2 = flashes st)).
Proof.
  split_and!; try intros Hget; unfold quiet; unfold_views; run_M;
    try rewrite Hget;
    repeat (case_match; simplify_eq; run_M; simpl in * ); done.
Qed.

Lemma app_quiet (env : Env) (req : Request) (st : State) :
  (method req = POST ∧ path req ∈ writing_paths)
  ∨ (quiet st (app env req st).2
     ∧ (method req = GET →
        flashes (app env req st).2 = flashes st
        ∨ (path req = "/logout" ∧ flashes (app env req st).2 = []))).
Proof.
  destruct (views_quiet env req st)
    as ([? ?] & [? ?] & [? ?] & [? ?] & [? ?] & [? ?] & ? & Hget).
  assert (Hst : quiet st st) by done.
  unfold app, get_only, writing_paths.
  destruct (method req) eqn:Hmethod.
  - destruct (Hget eq_refl) as (? & [? ?] & [? ?] & [? ?]).
    right.
    repeat
      match goal with
      | |- context [String.eqb (path req) ?s] =>
          destruct (String.eqb_spec (path req) s) as [E|_]
      end; simpl; (split; [done|]); intros _; by auto.
  - repeat
      match goal with
      | |- context [String.eqb (path req) ?s] =>
          destruct (String.eqb_spec (path req) s) as [E|_]
      end;
      first [ right; simpl; split; [done|discriminate]
            | left; split; [done|]; rewrite E, !elem_of_cons; by auto ].
Qed.

Lemma serve_state (env : Env) (req : Request) (st : State) :
  (serve env req st).2 = (app env req st).2.
Proof. unfold serve. by destruct (app env req st). Qed.



(** A GET of [/logout] with a message pending, as computed: the message
    goes with the session. *)
Example logout_drops_flashes :
  flashes (serve sample_env (get "/logout")
             (with_flash "User already exists!" "danger"
                (sample_state alice_session))).2
  = [].
Proof. vm_compute. reflexivity. Qed.

(** X18. Only three requests can change a table: a request after which
    the store differs is a POST to [/register], [/appointment/book] or
    [/doctor/register]; a login, whatever its outcome, writes nothing. *)
Theorem writes_only_by_post (env : Env) (req : Request) (st : State)
    (Hchanged : store (serve env req st).2 ≠ store st) :
  method req = POST ∧ path req ∈ writing_paths.
Proof.
  rewrite serve_state in Hchanged.
  destruct (app_quiet env req st) as [Hpost | [(? & ? & ?) _]]; done.
Qed.

Lemma writes_only_by_post_witness :
  method register_admin = POST ∧ path register_admin ∈ writing_paths.
Proof.
  apply (writes_only_by_post sample_env register_admin init_state).
  intros Heq.
  apply (f_equal (λ db, users_table db !! "mallory")) in Heq.
  vm_compute in Heq. discriminate Heq.
Defined.

(** ** Invariants of the store *)

Lemma serve_writes (env : Env) (s : gmap string string) (req : Request)
    (st : State) :
  step_writes env st (app env req (with_session s st)).
Proof. apply (app_writes env req (with_session s st)). Qed.

(** A property of the store kept by every request is kept by every run. *)
Lemma run_preserves (env : Env) (P : Store → Prop) :
  (∀ st out, step_writes env st out → P (store st) → P (store out.2)) →
  ∀ reqs st, P (store st) → P (store (run env reqs st)).
Proof.
  intros Hstep reqs. induction reqs as [|[s req] reqs IH]; intros st HP; [done|].
  simpl run. rewrite serve_state. apply IH.
  apply (Hstep st (app env req (with_session s st))); [|done].
  apply serve_writes.
Qed.

Ltac step_cases H :=
  destruct H as (tr & _ & _ & _ & H); cbv zeta in H;
  destruct H as [[-> _] | [(u' & p' & r' & Hfree & -> & _)
                           | [(n' & sp' & e' & -> & _)
                              | (d' & u'' & date' & reason' & -> & _ & _)]]];
  simpl; unfold Table.put_item.

(** X19. A user record, once on file, is never changed nor removed:
    whatever requests the server goes on to serve (registrations under the
    same username among them), the username keeps the password and the
    role it was registered with. *)
Theorem users_never_modified (env : Env)
    (reqs : list (gmap string string * Request)) (st : State)
    (u : string) (user : User.t)
    (Huser : users_table (store st) !! u = Some user) :
  users_table (store (run env reqs st)) !! u = Some user.
Proof.
  revert reqs st Huser.
  apply (run_preserves env (λ db, users_table db !! u = Some user)).
  intros st out Hstep Huser. step_cases Hstep; try done.
  rewrite lookup_insert_ne; [done|]. intros ->. congruence.
Qed.

Lemma users_never_modified_witness :
  users_table (store (run sample_env
    [ (∅, post "/register"
            {[ "role" := "doctor"; "username" := "alice";
               "password" := "stolen" ]});
      (∅, register_admin) ]
    (sample_state ∅))) !! "alice"
  = Some alice.
Proof. apply users_never_modified. reflexivity. Defined.

(** X20. Every request keeps the tables well keyed: a user sits under its
    [username], a doctor under its [doctor_id], an appointment under its
    pair ([appointment_id], [doctor_id]); and every appointment on file
    has status [Scheduled], no route ever storing another status. *)
Theorem store_wf_preserved (env : Env)
    (reqs : list (gmap string string * Request)) (st : State)
    (Hwf : store_wf (store st)) :
  store_wf (store (run env reqs st)).
Proof.
  revert reqs st Hwf. apply (run_preserves env store_wf).
  intros st out Hstep (Husers & Hdoctors & Happointments).
  step_cases Hstep; unfold store_wf; simpl; split_and!; try done.
  - intros k u [[<- <-] | [_ Hk]]%lookup_insert_Some; [done|by apply Husers].
  - intros k d [[<- <-] | [_ Hk]]%lookup_insert_Some; [done|by apply Hdoctors].
  - intros k a [[<- <-] | [_ Hk]]%lookup_insert_Some;
      [done|by apply Happointments].
Qed.

Lemma store_wf_preserved_witness :
  store_wf (store (run sample_env scenario init_state)).
Proof.
  apply store_wf_preserved.
  split_and!; intros k x Hk; vm_compute in Hk; discriminate Hk.
Defined.

(** X21. No route deletes: a key present in the [users], [doctors] or
    [appointments] table is still present after any run of requests. *)
Theorem keys_never_deleted (env : Env)
    (reqs : list (gmap string string * Request)) (st : State) :
  (∀ k, is_Some (users_table (store st) !! k) →
        is_Some (users_table (store (run env reqs st)) !! k))
  ∧ (∀ k, is_Some (doctors_table (store st) !! k) →
          is_Some (doctors_table (store (run env reqs st)) !! k))
  ∧ (∀ k, is_Some (appointments_table (store st) !! k) →
          is_Some (appointments_table (store (run env reqs st)) !! k)).
Proof.
  split_and!; intros k; revert reqs st;
    [ apply (run_preserves env (λ db, is_Some (users_table db !! k)))
    | apply (run_preserves env (λ db, is_Some (doctors_table db !! k)))
    | apply (run_preserves env (λ db, is_Some (appointments_table db !! k))) ];
    intros st out Hstep Hk; step_cases Hstep; try done;
    rewrite lookup_insert_is_Some'; auto.
Qed.

(** ** No booking is lost *)

(** The draws a run of [n] more requests can reach from counter [c1],
    one request after counter [c], are among those reachable from [c]. *)
Lemma draws_sublist (c c1 n : nat) :
  c1 = c ∨ c1 = S c → seq c1 n `sublist_of` seq c (S n).
Proof.
  intros [-> | ->].
  - rewrite seq_S. by apply sublist_inserts_r.
  - simpl. by apply sublist_cons.
Qed.

(** Along a run under pairwise distinct draws, every record booked is
    still in the table under its key at the end, the ids booked are among
    the draws of the run, and keys with another id are not touched. *)
Lemma run_bookings_kept (env : Env)
    (reqs : list (gmap string string * Request)) :
  ∀ st, NoDup (uuid4 env <$> seq (uuid_calls st) (length reqs)) →
    ∃ tr, trace (run env reqs st) = (trace st ++ tr)%list
      ∧ (∀ a, a ∈ booked tr →
           appointments_table (store (run env reqs st)) !! Appointment.key a
           = Some a
           ∧ Appointment.appointment_id a
             ∈ uuid4 env <$> seq (uuid_calls st) (length reqs))
      ∧ (∀ k, k.1 ∉ uuid4 env <$> seq (uuid_calls st) (length reqs) →
           appointments_table (store (run env reqs st)) !! k
           = appointments_table (store st) !! k).
Proof.
  induction reqs as [|[s req] reqs IH]; intros st Hnodup.
  { exists []. rewrite app_nil_r. split_and!; [done| |done].
    intros a Ha. by apply elem_of_nil in Ha. }
  simpl run. rewrite serve_state.
  destruct (serve_writes env s req st) as (tr1 & Htr1 & _ & Hc & Hcases).
  set (st1 := (app env req (with_session s st)).2) in *.
  change (length ((s, req) :: reqs)) with (S (length reqs)) in *.
  assert (Hsub : (uuid4 env <$> seq (uuid_calls st1) (length reqs))
                 `sublist_of` (uuid4 env <$> seq (uuid_calls st) (S (length reqs))))
    by (apply fmap_sublist, draws_sublist; exact Hc).
  assert (Hin : ∀ x, x ∈ uuid4 env <$> seq (uuid_calls st1) (length reqs) →
                     x ∈ uuid4 env <$> seq (uuid_calls st) (S (length reqs)))
    by (intros x Hx; by eapply elem_of_sublist).
  destruct (IH st1) as (tr2 & Htr2 & Hkept & Hframe);
    [by eapply sublist_NoDup|].
  exists (tr1 ++ tr2)%list. split_and!.
  - rewrite Htr2, Htr1. by rewrite <- (assoc_L (++)).
  - intros a. unfold booked. rewrite omap_app. fold (booked tr1) (booked tr2).
    intros [Ha | Ha]%elem_of_app; [|destruct (Hkept a Ha); by auto].
    cbv zeta in Hcases.
    destruct Hcases
      as [[_ Hb] | [(? & ? & ? & _ & _ & Hb)
                    | [(? & ? & ? & _ & Hb)
                       | (d & u & date & reason & Hstore & Hb & Hc1)]]];
      rewrite Hb in Ha; try by apply elem_of_nil in Ha.
    apply list_elem_of_singleton in Ha as ->.
    split.
    + rewrite Hframe.
      * rewrite Hstore. simpl. apply lookup_insert_eq.
      * simpl. rewrite Hc1. simpl in Hnodup.
        by apply NoDup_cons in Hnodup as [Hfresh _].
    + simpl. apply elem_of_cons. by left.
  - intros k Hk. rewrite Hframe by auto.
    cbv zeta in Hcases.
    destruct Hcases
      as [[-> _] | [(? & ? & ? & _ & -> & _)
                    | [(? & ? & ? & -> & _)
                       | (d & u & date & reason & -> & _ & _)]]];
      simpl; try done.
    unfold Table.put_item, Appointment.key. simpl.
    rewrite lookup_insert_ne; [done|].
    intros <-. apply Hk. simpl. apply elem_of_cons. by left.
Qed.

(** X22. No booking is lost: over the lifetime of the server, the UUID
    source handing out pairwise distinct values, every appointment
    record that a booking stored is still on file, unchanged, under its
    own key, however many bookings and registrations came after it. *)
Theorem no_booking_lost (env : Env)
    (reqs : list (gmap string string * Request))
    (Huuid : NoDup (uuid4 env <$> seq 0 (length reqs))) :
  ∀ a, a ∈ booked (trace (run env reqs init_state)) →
       appointments_table (store (run env reqs init_state))
         !! Appointment.key a = Some a.
Proof.
  destruct (run_bookings_kept env reqs init_state Huuid)
    as (tr & Htr & Hkept & _).
  intros a Ha. rewrite Htr in Ha. simpl in Ha. by destruct (Hkept a Ha).
Qed.

Lemma no_booking_lost_witness :
  appointments_table (store (run sample_env scenario init_state))
    !! ("uuid-1", "uuid-0")
  = Some (Appointment.mk "uuid-1" "uuid-0" "alice" "2024-01-01" "checkup"
            "Scheduled").
Proof.
  refine (no_booking_lost sample_env scenario _
            (Appointment.mk "uuid-1" "uuid-0" "alice" "2024-01-01" "checkup"
               "Scheduled") _).
  - vm_compute.
    repeat (constructor;
            [rewrite ?elem_of_cons, elem_of_nil; intuition discriminate|]).
    constructor.
  - vm_compute. apply elem_of_cons. by left.
Defined.

(** ** Sessions handed out by the server *)

Ltac close_session Hwf :=
  first
    [ exact Hwf
    | intros k; split; discriminate
    | intros _; rewrite lookup_insert_ne by done;
      rewrite lookup_insert_eq; by eexists
    | intros [? Hrole]; by rewrite lookup_empty in Hrole
    | exfalso; unfold session_wf in Hwf;
      destruct Hwf as [? ?]; [by eexists | congruence] ].

Lemma views_session_wf (env : Env) (req : Request) (st : State)
    (Hwf : session_wf (session st)) :
  let ok (out : (Raised + Response) * State) :=
    session_wf (session out.2)
    ∧ ∀ k, out.1 ≠ inl (KeyError k) ∧ out.1 ≠ inr (InternalServerError k) in
  ok (home req st) ∧ ok (register env req st) ∧ ok (login req st)
  ∧ ok (doctor_dashboard req st) ∧ ok (patient_dashboard req st)
  ∧ ok (logout req st) ∧ ok (book_appointment env req st)
  ∧ ok (doctor_appointments req st) ∧ ok (patient_appointments req st)
  ∧ ok (doctor_register env req st).
Proof.
  intros ok. subst ok. cbv beta.
  split_and!; unfold_views; unfold role_is; run_M;
    repeat (case_match; simplify_eq; run_M; simpl in * );
    close_session Hwf.
Qed.

Lemma app_session_wf (env : Env) (req : Request) (st : State)
    (Hwf : session_wf (session st)) :
  session_wf (session (app env req st).2)
  ∧ ∀ k, respond (app env req st).1 ≠ InternalServerError k.
Proof.
  destruct (views_session_wf env req st Hwf)
    as (? & ? & ? & ? & ? & ? & ? & ? & ? & ?).
  assert (Hany : ∀ out : (Raised + Response) * State,
            (session_wf (session out.2)
             ∧ ∀ k, out.1 ≠ inl (KeyError k)
                    ∧ out.1 ≠ inr (InternalServerError k)) →
            session_wf (session out.2)
            ∧ ∀ k, respond out.1 ≠ InternalServerError k).
  { intros [[[e|e]|r] st'] [Hs Hk]; (split; [done|]); intros k; simpl in *.
    - discriminate.
    - intros [= ->]. by destruct (Hk k).
    - intros ->. by destruct (Hk k). }
  apply Hany. unfold app, get_only.
  repeat case_match; try done; simpl; (split; [done|]); intros k; done.
Qed.

(** X23. A client that starts without a session, or with one where a
    role comes with a username, and keeps the session the server hands
    back, is never answered 500: [login] sets the username before the
    role and [logout] clears both, so no gated view meets a session with
    a role and no username. *)
Theorem browse_never_500 (env : Env) (reqs : list Request) (st : State)
    (Hwf : session_wf (session st)) :
  Forall (λ r, ∀ k, r ≠ InternalServerError k) (browse env reqs st).1
  ∧ session_wf (session (browse env reqs st).2).
Proof.
  revert st Hwf. induction reqs as [|req reqs IH]; intros st Hwf; [done|].
  simpl. unfold serve.
  destruct (app_session_wf env req st Hwf) as [Hwf1 Hresp].
  destruct (app env req st) as [r st1]. simpl in *.
  destruct (IH st1 Hwf1) as [Hrs Hwf2].
  destruct (browse env reqs st1) as [rs st2]. simpl in *.
  split; [by constructor|done].
Qed.

Lemma browse_never_500_witness :
  Forall (λ r, ∀ k, r ≠ InternalServerError k)
    (browse sample_env
       [ post "/login" {[ "username" := "alice"; "password" := "pw1" ]};
         get "/patient"; get "/doctor/appointments"; get "/logout";
         get "/patient/appointments" ]
       (sample_state ∅)).1.
Proof.
  apply browse_never_500. intros [? Hrole]. simpl in Hrole.
  by rewrite lookup_empty in Hrole.
Defined.

(** The responses of the walk above, as computed. *)
Example browse_responses :
  (browse sample_env
     [ post "/login" {[ "username" := "alice"; "password" := "pw1" ]};
       get "/patient"; get "/doctor/appointments"; get "/logout";
       get "/patient/appointments" ]
     (sample_state ∅)).1
  = [ Redirect "/patient";
      Render "patient_dashboard.html" (ArgUsername "alice");
      Redirect "/login"; Redirect "/"; Redirect "/login" ].
Proof. vm_compute. reflexivity. Qed.

(** ** Table provisioning at start-up *)

Lemma create_table_present (n : string) (ks ad : list (string * string))
    (account : gmap string TableDescription) :
  is_Some (account !! n) → create_table_if_not_exists n ks ad account = account.
Proof. intros [d Hd]. unfold create_table_if_not_exists. by rewrite Hd. Qed.

Lemma create_table_lookup (n m : string) (ks ad : list (string * string))
    (account : gmap string TableDescription) :
  create_table_if_not_exists n ks ad account !! m
  = match account !! m with
    | Some d => Some d
    | None => if decide (n = m)
              then Some (mkTableDescription ks ad "PAY_PER_REQUEST")
              else None
    end.
Proof.
  unfold create_table_if_not_exists.
  destruct (account !! n) as [d|] eqn:Hn.
  - destruct (account !! m) eqn:Hm; [done|].
    case_decide; [congruence|done].
  - rewrite lookup_insert. case_decide as Hnm.
    + subst m. by rewrite Hn.
    + by destruct (account !! m).
Qed.

(** X24. Table provisioning never alters what exists: whatever tables
    the account holds, each keeps the description it had (a table named
    [users], [doctors] or [appointments] with another key schema is left
    as it is, not recreated); each of the three that is missing is created
    with the key schema and attribute definitions declared for it and
    billing [PAY_PER_REQUEST], so that afterwards the three exist; tables
    of other names are neither created nor touched; and provisioning
    twice is provisioning once. *)
Theorem provision_idempotent (account : gmap string TableDescription) :
  (∀ n d, account !! n = Some d → provision account !! n = Some d)
  ∧ (account !! "users" = None →
     provision account !! "users"
     = Some (mkTableDescription [("username", "HASH")] [("username", "S")]
               "PAY_PER_REQUEST"))
  ∧ (account !! "doctors" = None →
     provision account !! "doctors"
     = Some (mkTableDescription [("doctor_id", "HASH")] [("doctor_id", "S")]
               "PAY_PER_REQUEST"))
  ∧ (account !! "appointments" = None →
     provision account !! "appointments"
     = Some (mkTableDescription
               [("appointment_id", "HASH"); ("doctor_id", "RANGE")]
               [("appointment_id", "S"); ("doctor_id", "S")]
               "PAY_PER_REQUEST"))
  ∧ (∀ n, n ∈ ["users"; "doctors"; "appointments"] →
          is_Some (provision account !! n))
  ∧ (∀ n, n ∉ ["users"; "doctors"; "appointments"] →
          provision account !! n = account !! n)
  ∧ provision (provision account) = provision account.
Proof.
  assert (Hexists : ∀ n, n ∈ ["users"; "doctors"; "appointments"] →
                         is_Some (provision account !! n)).
  { intros n. rewrite !elem_of_cons, elem_of_nil.
    unfold provision. rewrite !create_table_lookup.
    intros [-> | [-> | [-> | []]]];
      repeat (case_match; simplify_eq; try done). }
  split_and!.
  - intros n d Hn. unfold provision. rewrite !create_table_lookup.
    by rewrite Hn.
  - intros Hn. unfold provision. rewrite !create_table_lookup.
    rewrite Hn. by repeat (case_decide; simplify_eq).
  - intros Hn. unfold provision. rewrite !create_table_lookup.
    rewrite Hn. by repeat (case_decide; simplify_eq).
  - intros Hn. unfold provision. rewrite !create_table_lookup.
    rewrite Hn. by repeat (case_decide; simplify_eq).
  - exact Hexists.
  - intros n. rewrite !elem_of_cons, elem_of_nil. intros Hn.
    unfold provision. rewrite !create_table_lookup.
    destruct (account !! n); [done|].
    repeat (case_decide; simplify_eq); try done; exfalso; apply Hn; auto.
  - unfold provision at 1.
    rewrite (create_table_present "users"); [|apply Hexists; set_solver].
    rewrite (create_table_present "doctors"); [|apply Hexists; set_solver].
    rewrite (create_table_present "appointments"); [|apply Hexists; set_solver].
    done.
Qed.

(** Provisioning an account that already has a [users] table of another
    shape, as computed: the table is kept, the two others are created. *)
Example provision_keeps_existing :
  provision {[ "users" := mkTableDescription [("email", "HASH")]
                            [("email", "S")] "PROVISIONED" ]}
  = {[ "users" := mkTableDescription [("email", "HASH")] [("email", "S")]
                    "PROVISIONED";
       "doctors" := mkTableDescription [("doctor_id", "HASH")]
                      [("doctor_id", "S")] "PAY_PER_REQUEST";
       "appointments" :=
         mkTableDescription
           [("appointment_id", "HASH"); ("doctor_id", "RANGE")]
           [("appointment_id", "S"); ("doctor_id", "S")] "PAY_PER_REQUEST" ]}.
Proof. vm_compute. reflexivity. Qed.
